(** * query_data.py: scenario-driven query construction and record merging

    A shallow embedding of [src/query_data.py], the script that fetches the
    orbital elements of planets, dwarf planets and moons from NASA JPL's
    Horizons database and of asteroids from the Small-Body Database, writes
    them to one CSV file and prints a histogram of orbit classes.

    The script is one top-level sequence of statements.  It is embedded as a
    program in a writer/error monad: every file write, network request and
    console print is an event of a trace, an uncaught Python exception ends
    the run.  The two remote services, the platform and [str] on floats are
    fields of an environment record.

    What stands for what:
    - Python [int] is [Z], Python [float] a binary64 primitive float, [str]
      a string of bytes (all texts of the script are ASCII);
    - a dict literal is the list of its items in insertion order; the keys
      of both dicts of the script are distinct;
    - elapsed times and the layout of the table printed by [tabulate] are
      not computed: a print of either is an event that carries its data;
    - [csv.writer], [urllib.parse.quote] and [str.translate] are written
      out from their documented behaviour;
    - [run] is the script when [open] gives the output file; [script] is
      the script with [open] that can raise and with the file closed when
      the block of the [with] statement is left. *)

From Stdlib Require Import String Ascii List ZArith Lia Bool Floats.
From Stdlib Require Import Numbers.DecimalString.
Import ListNotations.

Set Warnings "-inexact-float,-register-all".

Local Open Scope list_scope.
Local Open Scope string_scope.

(* ===================================================================== *)
(** ** Python strings *)
(* ===================================================================== *)

Module PyStr.

(** The double quote, the line feed and the other members of
    [string.whitespace] (space, tab, LF, CR, VT, FF). *)
Definition dq : ascii := "034"%char.
Definition lf : ascii := "010"%char.
Definition cr : ascii := "013"%char.
Definition tab : ascii := "009"%char.
Definition vt : ascii := "011"%char.
Definition ff : ascii := "012"%char.

Definition chr (c : ascii) : string := String c EmptyString.

(** [s] between double quotes, as it stands in the Python source. *)
Definition q (s : string) : string := chr dq ++ s ++ chr dq.

(** [c in s]. *)
Fixpoint mem (c : ascii) (s : string) : bool :=
  match s with
  | EmptyString => false
  | String d s' => Ascii.eqb c d || mem c s'
  end.

Fixpoint filter (p : ascii -> bool) (s : string) : string :=
  match s with
  | EmptyString => EmptyString
  | String c s' => if p c then String c (filter p s') else filter p s'
  end.

Fixpoint existsb (p : ascii -> bool) (s : string) : bool :=
  match s with
  | EmptyString => false
  | String c s' => p c || existsb p s'
  end.

(** [sep.join(l)]. *)
Fixpoint join (sep : string) (l : list string) : string :=
  match l with
  | [] => EmptyString
  | [x] => x
  | x :: l' => x ++ sep ++ join sep l'
  end.

(** [s.split(sep)] for a one-character separator. *)
Fixpoint split (sep : ascii) (s : string) : list string :=
  match s with
  | EmptyString => [EmptyString]
  | String c s' =>
      if Ascii.eqb c sep then EmptyString :: split sep s'
      else match split sep s' with
           | [] => [chr c]
           | f :: fs => String c f :: fs
           end
  end.

(** [x in l] for a list of strings. *)
Definition mem_list (x : string) (l : list string) : bool :=
  List.existsb (String.eqb x) l.

(** [str(n)] for a Python [int]. *)
Definition str_of_Z (n : Z) : string := NilZero.string_of_int (Z.to_int n).

(** [string.whitespace]. *)
Definition whitespace : string :=
  String " " (String tab (String lf (String cr (String vt (String ff EmptyString))))).

(** [s.translate({ord(c): None for c in string.whitespace})]. *)
Definition strip_whitespace (s : string) : string :=
  filter (fun c => negb (mem c whitespace)) s.

End PyStr.

(* ===================================================================== *)
(** ** urllib.parse.quote and unquote, on the bytes of an ASCII string *)
(* ===================================================================== *)

Module Urllib.
Import PyStr.

Definition in_range (lo hi c : ascii) : bool :=
  (nat_of_ascii lo <=? nat_of_ascii c)%nat && (nat_of_ascii c <=? nat_of_ascii hi)%nat.

(** [_ALWAYS_SAFE]: letters, digits and [_.-~]. *)
Definition always_safe (c : ascii) : bool :=
  in_range "A" "Z" c || in_range "a" "z" c || in_range "0" "9" c || mem c "_.-~".

(** The default [safe='/'] of [quote]. *)
Definition safe (c : ascii) : bool := always_safe c || Ascii.eqb c "/".

Definition hex_digit (n : nat) : ascii :=
  match String.get n "0123456789ABCDEF" with
  | Some c => c
  | None => "0"%char
  end.

(** ['%{:02X}'.format(byte)]. *)
Definition quote_byte (c : ascii) : string :=
  let n := nat_of_ascii c in
  String "%" (String (hex_digit (n / 16)) (String (hex_digit (n mod 16)) EmptyString)).

Fixpoint quote (s : string) : string :=
  match s with
  | EmptyString => EmptyString
  | String c s' => (if safe c then chr c else quote_byte c) ++ quote s'
  end.

(** One hexadecimal digit, either case. *)
Definition hex_value (c : ascii) : option nat :=
  if in_range "0" "9" c then Some (nat_of_ascii c - 48)
  else if in_range "A" "F" c then Some (nat_of_ascii c - 55)
  else if in_range "a" "f" c then Some (nat_of_ascii c - 87)
  else None.

(** [unquote]: a percent sign followed by two hexadecimal digits is the
    byte they denote; any other percent sign stands for itself. *)
Fixpoint unquote (s : string) : string :=
  match s with
  | EmptyString => EmptyString
  | String c s' =>
      if Ascii.eqb c "%" then
        match s' with
        | String a (String b r) =>
            match hex_value a, hex_value b with
            | Some x, Some y => String (ascii_of_nat (16 * x + y)) (unquote r)
            | _, _ => String c (unquote s')
            end
        | _ => String c (unquote s')
        end
      else String c (unquote s')
  end.

End Urllib.

(* ===================================================================== *)
(** ** JSON text of a filter, and its logical form *)
(* ===================================================================== *)

(** The value of [sb-cdata] is JSON text built from objects, arrays and
    strings only.  [Json.loads] reads that fragment of JSON. *)
Module Json.
Import PyStr.

Inductive json : Type :=
| JStr (s : string)
| JArr (l : list json)
| JObj (l : list (string * json)).

Fixpoint skip_ws (s : string) : string :=
  match s with
  | String c s' => if mem c whitespace then skip_ws s' else s
  | EmptyString => EmptyString
  end.

(** The characters up to the closing double quote; escapes and control
    characters are not read. *)
Fixpoint string_body (s : string) : option (string * string) :=
  match s with
  | EmptyString => None
  | String c s' =>
      if Ascii.eqb c dq then Some (EmptyString, s')
      else if Ascii.eqb c "\" || (nat_of_ascii c <? 32)%nat then None
      else match string_body s' with
           | Some (body, rest) => Some (String c body, rest)
           | None => None
           end
  end.

Fixpoint value (fuel : nat) (s : string) : option (json * string) :=
  match fuel with
  | O => None
  | S n =>
      match skip_ws s with
      | EmptyString => None
      | String c r =>
          if Ascii.eqb c dq then
            match string_body r with
            | Some (body, rest) => Some (JStr body, rest)
            | None => None
            end
          else if Ascii.eqb c "[" then
            match skip_ws r with
            | String "]" r' => Some (JArr [], r')
            | _ => match elements n r with
                   | Some (l, rest) => Some (JArr l, rest)
                   | None => None
                   end
            end
          else if Ascii.eqb c "{" then
            match skip_ws r with
            | String "}" r' => Some (JObj [], r')
            | _ => match members n r with
                   | Some (l, rest) => Some (JObj l, rest)
                   | None => None
                   end
            end
          else None
      end
  end
with elements (fuel : nat) (s : string) : option (list json * string) :=
  match fuel with
  | O => None
  | S n =>
      match value n s with
      | None => None
      | Some (v, r) =>
          match skip_ws r with
          | String "," r' =>
              match elements n r' with
              | Some (vs, rest) => Some (v :: vs, rest)
              | None => None
              end
          | String "]" r' => Some ([v], r')
          | _ => None
          end
      end
  end
with members (fuel : nat) (s : string) : option (list (string * json) * string) :=
  match fuel with
  | O => None
  | S n =>
      match skip_ws s with
      | String c r =>
          if Ascii.eqb c dq then
            match string_body r with
            | None => None
            | Some (key, r1) =>
                match skip_ws r1 with
                | String ":" r2 =>
                    match value n r2 with
                    | None => None
                    | Some (v, r3) =>
                        match skip_ws r3 with
                        | String "," r4 =>
                            match members n r4 with
                            | Some (kvs, rest) => Some ((key, v) :: kvs, rest)
                            | None => None
                            end
                        | String "}" r4 => Some ([(key, v)], r4)
                        | _ => None
                        end
                    end
                | _ => None
                end
            end
          else None
      | EmptyString => None
      end
  end.

(** [json.loads]: one value, nothing but white space after it. *)
Definition loads (s : string) : option json :=
  match value (2 * String.length s + 2) s with
  | Some (v, rest) =>
      match skip_ws rest with
      | EmptyString => Some v
      | _ => None
      end
  | None => None
  end.

End Json.

(** The structured filter of the Small-Body Database query API: a tree of
    [AND] and [OR] nodes over terms [field|OP] or [field|OP|value...]. *)
Module SbdbFilter.
Import PyStr Json.

Inductive op : Type := EQ | NE | LT | GT | LE | GE | RG | RE | DF | ND.

Inductive filter : Type :=
| Term (field : string) (o : op) (args : list string)
| And (l : list filter)
| Or (l : list filter).

Definition op_of_string (s : string) : option op :=
  if String.eqb s "EQ" then Some EQ else
  if String.eqb s "NE" then Some NE else
  if String.eqb s "LT" then Some LT else
  if String.eqb s "GT" then Some GT else
  if String.eqb s "LE" then Some LE else
  if String.eqb s "GE" then Some GE else
  if String.eqb s "RG" then Some RG else
  if String.eqb s "RE" then Some RE else
  if String.eqb s "DF" then Some DF else
  if String.eqb s "ND" then Some ND else None.

Definition term_of_string (s : string) : option filter :=
  match split "|" s with
  | field :: o :: args =>
      match op_of_string o with
      | Some o' => Some (Term field o' args)
      | None => None
      end
  | _ => None
  end.

Fixpoint of_json (j : json) : option filter :=
  match j with
  | JStr s => term_of_string s
  | JObj [(k, JArr l)] =>
      let fix all (l : list json) : option (list filter) :=
        match l with
        | [] => Some []
        | x :: l' =>
            match of_json x, all l' with
            | Some f, Some fs => Some (f :: fs)
            | _, _ => None
            end
        end in
      match all l with
      | Some fs =>
          if String.eqb k "AND" then Some (And fs)
          else if String.eqb k "OR" then Some (Or fs)
          else None
      | None => None
      end
  | _ => None
  end.

(** The logical form of a filter text. *)
Definition parse (s : string) : option filter :=
  match loads s with
  | Some j => of_json j
  | None => None
  end.

End SbdbFilter.

(* ===================================================================== *)
(** ** Python values, exceptions and the csv writer *)
(* ===================================================================== *)

Module Py.

(** What a cell of a row can hold: Horizons gives floats, the catalogue
    strings and floats, the JSON of the Small-Body Database strings,
    numbers or [null]. *)
Inductive value : Type :=
| VNone
| VStr (s : string)
| VInt (n : Z)
| VFloat (f : float).

Definition row : Type := list value.

(** The key of a major body: a Horizons number or a name. *)
Inductive body_id : Type :=
| IdInt (n : Z)
| IdStr (s : string).

(** The exceptions that can end the run.  [KeyError] and [IndexError] are
    the two subclasses of [LookupError]; [json.JSONDecodeError] is a
    subclass of [ValueError]. *)
Inductive exn : Type :=
| ValueError (msg : string)
| RuntimeError (msg : string)
| KeyError (key : value)
| IndexError
| HorizonsError (id : body_id)
| ConnectionError
| JSONDecodeError
| TypeError
| OSError (path : string).

Definition is_LookupError (e : exn) : bool :=
  match e with
  | KeyError _ | IndexError => true
  | _ => false
  end.

Definition is_ValueError (e : exn) : bool :=
  match e with
  | ValueError _ | JSONDecodeError => true
  | _ => false
  end.

End Py.

(** [csv.writer] with the default dialect: delimiter [,], quote character
    the double quote, doubled inside a quoted field, and QUOTE_MINIMAL (a
    field is quoted when it holds the delimiter, the quote character or a
    character of the line terminator). *)
Module Csv.
Import PyStr.

Definition special (lineterminator : string) (c : ascii) : bool :=
  Ascii.eqb c "," || Ascii.eqb c dq || mem c lineterminator.

Fixpoint double_quotes (s : string) : string :=
  match s with
  | EmptyString => EmptyString
  | String c s' =>
      if Ascii.eqb c dq then String dq (String dq (double_quotes s'))
      else String c (double_quotes s')
  end.

Definition field (lineterminator s : string) : string :=
  if existsb (special lineterminator) s
  then String dq (double_quotes s ++ chr dq)
  else s.

(** The text of one record; a record of one empty field is written as a
    pair of quotes. *)
Definition record (lineterminator : string) (fields : list string) : string :=
  match fields with
  | [f] => if String.eqb f "" then String dq (chr dq) else field lineterminator f
  | _ => join "," (map (field lineterminator) fields)
  end.

(** What [writer.writerow(row)] passes to [csvfile.write]. *)
Definition writerow (str : Py.value -> string) (lineterminator : string)
           (r : Py.row) : string :=
  record lineterminator (map str r) ++ lineterminator.

(** [s] put in front of the first string of [l]. *)
Definition prepend (s : string) (l : list string) : list string :=
  match l with
  | [] => [s]
  | f :: fs => (s ++ f) :: fs
  end.

(** The reader's side: the raw fields of a record, cut at the commas that
    are outside quotes. *)
Fixpoint fields_of (in_quotes : bool) (s : string) : list string :=
  match s with
  | EmptyString => [EmptyString]
  | String c s' =>
      if Ascii.eqb c "," && negb in_quotes then EmptyString :: fields_of false s'
      else prepend (chr c)
             (fields_of (if Ascii.eqb c dq then negb in_quotes else in_quotes) s')
  end.

End Csv.

(* ===================================================================== *)
(** ** The script *)
(* ===================================================================== *)

Module QueryData.
Import PyStr Py.

(** *** Command line *)

Inductive Scenario : Type := planets_and_moons | scenario1 | scenario2 | full.

Definition scenario_name (s : Scenario) : string :=
  match s with
  | planets_and_moons => "planets_and_moons"
  | scenario1 => "scenario1"
  | scenario2 => "scenario2"
  | full => "full"
  end.

Definition scenario_eqb (s t : Scenario) : bool :=
  match s, t with
  | planets_and_moons, planets_and_moons
  | scenario1, scenario1
  | scenario2, scenario2
  | full, full => true
  | _, _ => false
  end.

(** [args]: [--output], [--scenario] (one of the four choices) and
    [--limit] ([None] when absent). *)
Record Args : Type := mkArgs {
  output : string;
  scenario : Scenario;
  limit : option Z
}.

(** *** Effects *)

Inductive console : Type :=
| Line (s : string)                  (* print(s) *)
| Timing (label : string)            (* print("<label>: {:.2f}s".format(elapsed)) *)
| Table (rows : list (string * Z)).  (* print(tabulate.tabulate(rows, ...)) *)

Inductive event : Type :=
| Open (path : string)                         (* open(path, 'w+') *)
| Write (data : string)                        (* csvfile.write(data) *)
| HorizonsQuery (id : body_id) (location : string)
                                               (* Horizons(id, location, epochs=2451544.5).elements() *)
| HttpGet (url : string)                       (* requests.get(url) *)
| Print (c : console)
| Close (path : string).                       (* csvfile is closed: the with block is left *)

(** A run: the events so far, then an exception or a value. *)
Definition M (A : Type) : Type := list event * (exn + A).

Definition ret {A} (a : A) : M A := ([], inr a).

Definition raise {A} (e : exn) : M A := ([], inl e).

Definition bind {A B} (m : M A) (k : A -> M B) : M B :=
  match m with
  | (t, inl e) => (t, inl e)
  | (t, inr a) => let (t', r) := k a in ((t ++ t')%list, r)
  end.

Definition emit (ev : event) : M unit := ([ev], inr tt).

Definition print (c : console) : M unit := emit (Print c).

Definition write (data : string) : M unit := emit (Write data).

Notation "x <- m ;; k" := (bind m (fun x => k))
  (at level 61, m at next level, right associativity).
Notation "m ;; k" := (bind m (fun _ => k))
  (at level 61, right associativity).

(** [if c: raise e]. *)
Definition raise_if (c : bool) (e : exn) : M unit :=
  if c then raise e else ret tt.

(** [for x in l: s = body(s, x)]. *)
Fixpoint for_in {A S : Type} (l : list A) (body : S -> A -> M S) (s : S) : M S :=
  match l with
  | [] => ret s
  | x :: l' => s' <- body s x ;; for_in l' body s'
  end.

(** *** Environment *)

(** The columns the script reads from [obj.elements()], the semi-major
    axis after [convert_unit_to('au')]. *)
Record Ephemeris : Type := mkEphemeris {
  eph_e : float;
  eph_a : float;
  eph_incl : float;
  eph_Omega : float;
  eph_w : float;
  eph_M : float;
  eph_datetime_jd : float
}.

(** [req.text] as [json.loads] and the subscript [["data"]] take it: not
    JSON, JSON that is no object, an object without the member [data], or
    an object whose [data] is a list of rows. *)
Inductive Payload : Type :=
| NotJSON
| NotAnObject
| NoDataMember
| Data (rows : list row).

(** [req.status_code] and [req.text]. *)
Record Response : Type := mkResponse {
  status_code : Z;
  text : Payload
}.

(** [json.loads(req.text)["data"]], when it is there. *)
Definition data (req : Response) : option (list row) :=
  match text req with
  | Data rows => Some rows
  | _ => None
  end.

Inductive Platform : Type := Posix | Windows.

Record Env : Type := mkEnv {
  platform : Platform;
  str_float : float -> string;                             (* str(x) for a float *)
  horizons : body_id -> string -> option Ephemeris;        (* None: the query raises *)
  requests_get : string -> option Response                 (* None: the request raises *)
}.

(** [os.linesep]. *)
Definition linesep (E : Env) : string :=
  match platform E with
  | Posix => chr lf
  | Windows => String cr (chr lf)
  end.

(** [str(x)] as the csv writer takes it: [None] is the empty field. *)
Definition str (E : Env) (v : value) : string :=
  match v with
  | VNone => ""
  | VStr s => s
  | VInt n => str_of_Z n
  | VFloat f => str_float E f
  end.

Definition writerow (E : Env) (lineterminator : string) (r : row) : M unit :=
  write (Csv.writerow (str E) lineterminator r).

Definition writerows (E : Env) (lineterminator : string) (rows : list row) : M unit :=
  for_in rows (fun _ r => writerow E lineterminator r) tt.

(** *** Sanity check of the command line (lines 41-44) *)

Definition is_some {A} (o : option A) : bool :=
  match o with Some _ => true | None => false end.

Definition sanity_check (args : Args) : M unit :=
  raise_if (negb (scenario_eqb (scenario args) scenario2) && is_some (limit args))
    (ValueError "-l/--limit may only be used with -s/--scenario scenario2") ;;
  raise_if (scenario_eqb (scenario args) scenario2 && negb (is_some (limit args)))
    (ValueError "-l/--limit must be provided for -s/--scenario scenario2").

Definition header : row :=
  map VStr ["e"; "a"; "i"; "om"; "w"; "ma"; "epoch"; "H"; "albedo"; "diameter";
            "class"; "name"; "mass"; "central_body"].

(** *** Planets, dwarf planets and moons (lines 67-306) *)

Record Body : Type := mkBody {
  name : string;
  orbit_class : string;
  central_body : string;
  mass : float
}.

(** The dict literal, in insertion order. *)
Definition major_bodies_dict : list (body_id * Body) :=
  [
    (* planets *)
    (IdInt 199, mkBody "Mercury" "PLA" "Sun" 3.301011e+23);
    (IdInt 299, mkBody "Venus" "PLA" "Sun" 4.867320e+24);
    (IdInt 399, mkBody "Earth" "PLA" "Sun" 5.972186e+24);
    (IdInt 499, mkBody "Mars" "PLA" "Sun" 6.416928e+23);
    (IdInt 599, mkBody "Jupiter" "PLA" "Sun" 1.898130e+27);
    (IdInt 699, mkBody "Saturn" "PLA" "Sun" 5.683191e+26);
    (IdInt 799, mkBody "Uranus" "PLA" "Sun" 8.681013e+25);
    (IdInt 899, mkBody "Neptune" "PLA" "Sun" 1.024096e+26);

    (* dwarf planets *)
    (IdStr "Ceres", mkBody "Ceres" "DWA" "Sun" 9.47e+20);
    (IdInt 999, mkBody "Pluto" "DWA" "Sun" 1.302933e+22);
    (IdInt 136199, mkBody "Eris" "DWA" "Sun" 1.671600e+22);
    (IdInt 136108, mkBody "Haumea" "DWA" "Sun" 4.006000e+21);
    (IdInt 136472, mkBody "Makemake" "DWA" "Sun" 3.100000e+21);
    (IdInt 225088, mkBody "Gonggong" "DWA" "Sun" 1.750000e+21);
    (IdInt 50000, mkBody "Quaoar" "DWA" "Sun" 1.400000e+21);
    (IdInt 90377, mkBody "Sedna" "DWA" "Sun" 1.194000e+21);
    (IdInt 90482, mkBody "Orcus" "DWA" "Sun" 6.348000e+20);
    (IdInt 120347, mkBody "Salacia" "DWA" "Sun" 4.922000e+20);

    (* Earth moon *)
    (IdInt 301, mkBody "Luna" "SAT" "Earth" 7.345811e+22);

    (* Mars moons *)
    (IdInt 401, mkBody "Phobos" "SAT" "Mars" 1.061919e+16);
    (IdInt 402, mkBody "Deimos" "SAT" "Mars" 1.440690e+15);

    (* Jupiter moons *)
    (IdInt 501, mkBody "Io" "SAT" "Jupiter" 8.929676e+22);
    (IdInt 502, mkBody "Europa" "SAT" "Jupiter" 4.798588e+22);
    (IdInt 503, mkBody "Ganymede" "SAT" "Jupiter" 1.481483e+23);
    (IdInt 504, mkBody "Callisto" "SAT" "Jupiter" 1.075664e+23);
    (IdInt 505, mkBody "Amalthea" "SAT" "Jupiter" 2.465636e+18);
    (IdInt 506, mkBody "Himalia" "SAT" "Jupiter" 2.270693e+18);
    (IdInt 507, mkBody "Elara" "SAT" "Jupiter" 8.692277e+17);
    (IdInt 508, mkBody "Pasiphae" "SAT" "Jupiter" 2.997337e+17);
    (IdInt 509, mkBody "Sinope" "SAT" "Jupiter" 7.493342e+16);
    (IdInt 510, mkBody "Lysithea" "SAT" "Jupiter" 6.294407e+16);
    (IdInt 511, mkBody "Carme" "SAT" "Jupiter" 1.318828e+17);
    (IdInt 512, mkBody "Ananke" "SAT" "Jupiter" 2.997337e+16);
    (IdInt 513, mkBody "Leda" "SAT" "Jupiter" 1.094028e+16);
    (IdInt 514, mkBody "Thebe" "SAT" "Jupiter" 4.517042e+17);
    (IdInt 515, mkBody "Adrastea" "SAT" "Jupiter" 2.082622e+15);
    (IdInt 516, mkBody "Metis" "SAT" "Jupiter" 3.747221e+16);
    (IdInt 517, mkBody "Callirrhoe" "SAT" "Jupiter" 8.692277e+14);
    (IdInt 518, mkBody "Themisto" "SAT" "Jupiter" 6.893875e+14);
    (IdInt 519, mkBody "Megaclite" "SAT" "Jupiter" 2.098136e+14);
    (IdInt 520, mkBody "Taygete" "SAT" "Jupiter" 1.648535e+14);
    (IdInt 521, mkBody "Chaldene" "SAT" "Jupiter" 7.493342e+13);
    (IdInt 522, mkBody "Harpalyke" "SAT" "Jupiter" 1.198935e+14);
    (IdInt 523, mkBody "Kalyke" "SAT" "Jupiter" 1.948269e+14);
    (IdInt 524, mkBody "Iocaste" "SAT" "Jupiter" 1.948269e+14);
    (IdInt 525, mkBody "Erinome" "SAT" "Jupiter" 4.496005e+13);
    (IdInt 526, mkBody "Isonoe" "SAT" "Jupiter" 7.493342e+13);
    (IdInt 527, mkBody "Praxidike" "SAT" "Jupiter" 4.346138e+14);
    (IdInt 528, mkBody "Autonoe" "SAT" "Jupiter" 8.992011e+13);
    (IdInt 529, mkBody "Thyone" "SAT" "Jupiter" 8.992011e+13);
    (IdInt 530, mkBody "Hermippe" "SAT" "Jupiter" 8.992011e+13);
    (IdInt 531, mkBody "Aitne" "SAT" "Jupiter" 4.496005e+13);
    (IdInt 532, mkBody "Eurydome" "SAT" "Jupiter" 4.496005e+13);
    (IdInt 533, mkBody "Euanthe" "SAT" "Jupiter" 4.496005e+13);
    (IdInt 534, mkBody "Euporie" "SAT" "Jupiter" 1.498668e+13);
    (IdInt 535, mkBody "Orthosie" "SAT" "Jupiter" 1.498668e+13);
    (IdInt 536, mkBody "Sponde" "SAT" "Jupiter" 1.498668e+13);
    (IdInt 537, mkBody "Kale" "SAT" "Jupiter" 1.498668e+13);
    (IdInt 538, mkBody "Pasithee" "SAT" "Jupiter" 1.498668e+13);
    (IdInt 539, mkBody "Hegemone" "SAT" "Jupiter" 4.496005e+13);
    (IdInt 540, mkBody "Mneme" "SAT" "Jupiter" 1.498668e+13);
    (IdInt 541, mkBody "Aoede" "SAT" "Jupiter" 8.992011e+13);
    (IdInt 542, mkBody "Thelxinoe" "SAT" "Jupiter" 1.498668e+13);
    (IdInt 543, mkBody "Arche" "SAT" "Jupiter" 4.496005e+13);
    (IdInt 544, mkBody "Kallichore" "SAT" "Jupiter" 1.498668e+13);
    (IdInt 545, mkBody "Helike" "SAT" "Jupiter" 8.992011e+13);
    (IdInt 546, mkBody "Carpo" "SAT" "Jupiter" 4.496005e+13);
    (IdInt 547, mkBody "Eukelade" "SAT" "Jupiter" 8.992011e+13);
    (IdInt 548, mkBody "Cyllene" "SAT" "Jupiter" 1.498668e+13);
    (IdInt 549, mkBody "Kore" "SAT" "Jupiter" 1.498668e+13);
    (IdInt 550, mkBody "Herse" "SAT" "Jupiter" 1.498668e+13);
    (IdInt 553, mkBody "Dia" "SAT" "Jupiter" 5.520000e+12);
    (IdInt 557, mkBody "Eirene" "SAT" "Jupiter" 5.520000e+12);
    (IdInt 558, mkBody "Philophrosyne" "SAT" "Jupiter" 2.760000e+12);
    (IdInt 560, mkBody "Eupheme" "SAT" "Jupiter" 2.760000e+12);
    (IdInt 562, mkBody "Valetudo" "SAT" "Jupiter" 1.380000e+12);
    (IdInt 565, mkBody "Pandia" "SAT" "Jupiter" 4.140000e+12);
    (IdInt 571, mkBody "Ersa" "SAT" "Jupiter" 4.140000e+12);

    (* Saturn moons *)
    (IdInt 601, mkBody "Mimas" "SAT" "Saturn" 3.750950e+19);
    (IdInt 602, mkBody "Enceladus" "SAT" "Saturn" 1.080321e+20);
    (IdInt 603, mkBody "Tethys" "SAT" "Saturn" 6.174978e+20);
    (IdInt 604, mkBody "Dione" "SAT" "Saturn" 1.095490e+21);
    (IdInt 605, mkBody "Rhea" "SAT" "Saturn" 2.306492e+21);
    (IdInt 606, mkBody "Titan" "SAT" "Saturn" 1.345184e+23);
    (IdInt 607, mkBody "Hyperion" "SAT" "Saturn" 5.551031e+18);
    (IdInt 608, mkBody "Iapetus" "SAT" "Saturn" 1.805665e+21);
    (IdInt 609, mkBody "Phoebe" "SAT" "Saturn" 8.312297e+18);
    (IdInt 610, mkBody "Janus" "SAT" "Saturn" 1.896482e+18);
    (IdInt 611, mkBody "Epimetheus" "SAT" "Saturn" 5.262490e+17);
    (IdInt 612, mkBody "Helene" "SAT" "Saturn" 7.127989e+15);
    (IdInt 613, mkBody "Telesto" "SAT" "Saturn" 4.046405e+15);
    (IdInt 614, mkBody "Calypso" "SAT" "Saturn" 2.547736e+15);
    (IdInt 615, mkBody "Atlas" "SAT" "Saturn" 5.571944e+15);
    (IdInt 616, mkBody "Prometheus" "SAT" "Saturn" 1.610972e+17);
    (IdInt 617, mkBody "Pandora" "SAT" "Saturn" 1.391959e+17);
    (IdInt 618, mkBody "Pan" "SAT" "Saturn" 4.945606e+15);
    (IdInt 619, mkBody "Ymir" "SAT" "Saturn" 4.945606e+15);
    (IdInt 620, mkBody "Paaliaq" "SAT" "Saturn" 8.242676e+15);
    (IdInt 621, mkBody "Tarvos" "SAT" "Saturn" 2.697603e+15);
    (IdInt 622, mkBody "Ijiraq" "SAT" "Saturn" 1.198935e+15);
    (IdInt 623, mkBody "Suttungr" "SAT" "Saturn" 2.098136e+14);
    (IdInt 624, mkBody "Kiviuq" "SAT" "Saturn" 3.297071e+15);
    (IdInt 625, mkBody "Mundilfari" "SAT" "Saturn" 2.098136e+14);
    (IdInt 626, mkBody "Albiorix" "SAT" "Saturn" 2.098136e+16);
    (IdInt 627, mkBody "Skathi" "SAT" "Saturn" 3.147204e+14);
    (IdInt 628, mkBody "Erriapus" "SAT" "Saturn" 7.643209e+14);
    (IdInt 629, mkBody "Siarnaq" "SAT" "Saturn" 3.896538e+16);
    (IdInt 630, mkBody "Thrymr" "SAT" "Saturn" 2.098136e+14);
    (IdInt 631, mkBody "Narvi" "SAT" "Saturn" 3.446937e+14);
    (IdInt 632, mkBody "Methone" "SAT" "Saturn" 8.992011e+12);
    (IdInt 633, mkBody "Pallene" "SAT" "Saturn" 3.297071e+13);
    (IdInt 634, mkBody "Polydeuces" "SAT" "Saturn" 4.496005e+12);
    (IdInt 635, mkBody "Daphnis" "SAT" "Saturn" 7.793076e+13);
    (IdInt 636, mkBody "Aegir" "SAT" "Saturn" 2.599000e+14);
    (IdInt 637, mkBody "Bebhionn" "SAT" "Saturn" 2.599000e+14);
    (IdInt 638, mkBody "Bergelmir" "SAT" "Saturn" 2.599000e+14);
    (IdInt 639, mkBody "Bestla" "SAT" "Saturn" 4.140000e+14);
    (IdInt 640, mkBody "Farbauti" "SAT" "Saturn" 1.495000e+14);
    (IdInt 641, mkBody "Fenrir" "SAT" "Saturn" 7.820000e+13);
    (IdInt 642, mkBody "Fornjot" "SAT" "Saturn" 8.280000e+12);
    (IdInt 643, mkBody "Hati" "SAT" "Saturn" 2.599000e+14);
    (IdInt 644, mkBody "Hyrrokkin" "SAT" "Saturn" 2.599000e+14);
    (IdInt 645, mkBody "Kari" "SAT" "Saturn" 2.599000e+14);
    (IdInt 646, mkBody "Loge" "SAT" "Saturn" 2.599000e+14);
    (IdInt 647, mkBody "Skoll" "SAT" "Saturn" 2.599000e+14);
    (IdInt 648, mkBody "Surtur" "SAT" "Saturn" 2.599000e+14);
    (IdInt 649, mkBody "Anthe" "SAT" "Saturn" 1.498668e+12);
    (IdInt 650, mkBody "Jarnsaxa" "SAT" "Saturn" 2.599000e+14);
    (IdInt 651, mkBody "Greip" "SAT" "Saturn" 2.599000e+14);
    (IdInt 652, mkBody "Tarqeq" "SAT" "Saturn" 2.599000e+14);
    (IdInt 653, mkBody "Aegaeon" "SAT" "Saturn" 5.994674e+10);

    (* Uranus moons *)
    (IdInt 701, mkBody "Ariel" "SAT" "Uranus" 1.250524e+21);
    (IdInt 702, mkBody "Umbriel" "SAT" "Uranus" 1.274945e+21);
    (IdInt 703, mkBody "Titania" "SAT" "Uranus" 3.400272e+21);
    (IdInt 704, mkBody "Oberon" "SAT" "Uranus" 3.076338e+21);
    (IdInt 705, mkBody "Miranda" "SAT" "Uranus" 6.471884e+19);
    (IdInt 706, mkBody "Cordelia" "SAT" "Uranus" 4.496005e+16);
    (IdInt 707, mkBody "Ophelia" "SAT" "Uranus" 5.395206e+16);
    (IdInt 708, mkBody "Bianca" "SAT" "Uranus" 9.291744e+16);
    (IdInt 709, mkBody "Cressida" "SAT" "Uranus" 3.431951e+17);
    (IdInt 710, mkBody "Desdemona" "SAT" "Uranus" 1.783415e+17);
    (IdInt 711, mkBody "Juliet" "SAT" "Uranus" 5.575047e+17);
    (IdInt 712, mkBody "Portia" "SAT" "Uranus" 1.681506e+18);
    (IdInt 713, mkBody "Rosalind" "SAT" "Uranus" 2.547736e+17);
    (IdInt 714, mkBody "Belinda" "SAT" "Uranus" 3.566831e+17);
    (IdInt 715, mkBody "Puck" "SAT" "Uranus" 2.893929e+18);
    (IdInt 716, mkBody "Caliban" "SAT" "Uranus" 2.997337e+17);
    (IdInt 717, mkBody "Sycorax" "SAT" "Uranus" 2.697603e+18);
    (IdInt 718, mkBody "Prospero" "SAT" "Uranus" 9.891212e+16);
    (IdInt 719, mkBody "Setebos" "SAT" "Uranus" 8.692277e+16);
    (IdInt 720, mkBody "Stephano" "SAT" "Uranus" 2.547736e+16);
    (IdInt 721, mkBody "Trinculo" "SAT" "Uranus" 4.645872e+15);
    (IdInt 722, mkBody "Francisco" "SAT" "Uranus" 8.392543e+15);
    (IdInt 723, mkBody "Margaret" "SAT" "Uranus" 6.294407e+15);
    (IdInt 724, mkBody "Ferdinand" "SAT" "Uranus" 6.294407e+15);
    (IdInt 725, mkBody "Perdita" "SAT" "Uranus" 1.800000e+16);
    (IdInt 726, mkBody "Mab" "SAT" "Uranus" 1.000000e+15);
    (IdInt 727, mkBody "Cupid" "SAT" "Uranus" 3.800000e+15);

    (* Neptune moons *)
    (IdInt 801, mkBody "Triton" "SAT" "Neptune" 2.140299e+22);
    (IdInt 802, mkBody "Nereid" "SAT" "Neptune" 3.087257e+19);
    (IdInt 803, mkBody "Naiad" "SAT" "Neptune" 1.278083e+17);
    (IdInt 804, mkBody "Thalassa" "SAT" "Neptune" 3.534274e+17);
    (IdInt 805, mkBody "Despina" "SAT" "Neptune" 1.748980e+18);
    (IdInt 806, mkBody "Galatea" "SAT" "Neptune" 2.845228e+18);
    (IdInt 807, mkBody "Larissa" "SAT" "Neptune" 3.818296e+18);
    (IdInt 808, mkBody "Proteus" "SAT" "Neptune" 3.870713e+19);
    (IdInt 809, mkBody "Halimede" "SAT" "Neptune" 8.992011e+16);
    (IdInt 810, mkBody "Psamathe" "SAT" "Neptune" 1.498668e+16);
    (IdInt 811, mkBody "Sao" "SAT" "Neptune" 8.992011e+16);
    (IdInt 812, mkBody "Laomedeia" "SAT" "Neptune" 8.992011e+16);
    (IdInt 813, mkBody "Neso" "SAT" "Neptune" 1.648535e+17);
    (IdInt 814, mkBody "Hippocamp" "SAT" "Neptune" 1.500000e+16);

    (* Pluto moons *)
    (IdInt 901, mkBody "Charon" "SAT" "Pluto" 1.586388e+21);
    (IdInt 902, mkBody "Nix" "SAT" "Pluto" 4.567048e+16);
    (IdInt 903, mkBody "Hydra" "SAT" "Pluto" 4.811065e+16);
    (IdInt 904, mkBody "Kerberos" "SAT" "Pluto" 1.663162e+16);
    (IdInt 905, mkBody "Styx" "SAT" "Pluto" 7.500000e+15)
  ].

Definition location_query (b : Body) : string :=
  if String.eqb (central_body b) "Sun" then "@sun"
  else if String.eqb (central_body b) "Earth" then "Geocentric"
  else central_body b ++ " Barycenter".

Definition elements (E : Env) (body : body_id) (location : string) : M Ephemeris :=
  emit (HorizonsQuery body location) ;;
  match horizons E body location with
  | Some eph => ret eph
  | None => raise (HorizonsError body)
  end.

(** The list appended to [jpl_horizons_data] for one body. *)
Definition horizons_row (eph : Ephemeris) (b : Body) : row :=
  [VFloat (eph_e eph); VFloat (eph_a eph); VFloat (eph_incl eph); VFloat (eph_Omega eph);
   VFloat (eph_w eph); VFloat (eph_M eph); VFloat (eph_datetime_jd eph);
   VStr ""; VStr ""; VStr "";
   VStr (orbit_class b); VStr (name b); VFloat (mass b); VStr (central_body b)].

(** The loop over the dict; [dict[body]] is the value paired with the key
    [body]. *)
Definition query_horizons (E : Env) (dict : list (body_id * Body)) : M (list row) :=
  for_in dict
    (fun jpl_horizons_data item =>
       eph <- elements E (fst item) (location_query (snd item)) ;;
       ret (jpl_horizons_data ++ [horizons_row eph (snd item)])%list)
    [].

(** Lines 300-306: [args.limit] after the adjustment. *)
Definition adjust_limit (limit : option Z) (len_data : Z) : M (option Z) :=
  match limit with
  | Some l =>
      raise_if (l <? len_data + 1)%Z
        (ValueError ("-l/--limit (" ++ str_of_Z l ++
                     ") must be at least as large as the number of planets and moons + 1 (" ++
                     "accounting for the Sun) which is " ++ str_of_Z (len_data + 1) ++ "!")) ;;
      ret (Some (l - (len_data + 1))%Z)
  | None => ret None
  end.

(** *** Asteroids (lines 314-365) *)

Definition url : string := "https://ssd-api.jpl.nasa.gov/sbdb_query.api".

Definition fields : string :=
  "full-prec=true&fields=e,a,i,om,w,ma,epoch,H,albedo,diameter,class,full_name".

(** The raw string literal of lines 334-341. *)
Definition query : string :=
  chr lf ++
  "            {" ++ chr lf ++
  "                " ++ q "AND" ++ ": [" ++ chr lf ++
  "                    { " ++ q "AND" ++ " : [ " ++ q "diameter|DF" ++ ", " ++ q "albedo|DF" ++ " ] }," ++ chr lf ++
  "                    { " ++ q "OR" ++ " : [ " ++ q "class|NE|MBA" ++ ", " ++ q "diameter|GE|10" ++ " ] }" ++ chr lf ++
  "                ]" ++ chr lf ++
  "            }" ++ chr lf ++
  "            ".

(** ["{}".format(x)] for [args.limit]. *)
Definition format_limit (limit : option Z) : string :=
  match limit with
  | Some l => str_of_Z l
  | None => "None"
  end.

Definition constraint (s : Scenario) (limit : option Z) : string :=
  match s with
  | scenario1 => "&sb-cdata=" ++ Urllib.quote (strip_whitespace query)
  | scenario2 => "&limit=" ++ format_limit limit
  | _ => ""
  end.

Definition request_url (s : Scenario) (limit : option Z) : string :=
  url ++ "?" ++ fields ++ constraint s limit ++ "&sb-kind=a".

Definition small_bodies (E : Env) (s : Scenario) (limit : option Z) : M (list row) :=
  emit (HttpGet (request_url s limit)) ;;
  match requests_get E (request_url s limit) with
  | None => raise ConnectionError
  | Some req =>
      raise_if (negb (status_code req =? 200)%Z)
        (RuntimeError ("Error " ++ str_of_Z (status_code req) ++
                       " performing request. For more information see " ++
                       "https://ssd-api.jpl.nasa.gov/doc/sbdb_query.html#http-response-codes.")) ;;
      match text req with
      | NotJSON => raise JSONDecodeError
      | NotAnObject => raise TypeError
      | NoDataMember => raise (KeyError (VStr "data"))
      | Data rows =>
          writerows E (",," ++ linesep E) rows ;;
          print (Timing "NASA JPL Small Body Database") ;;
          ret rows
      end
  end.

(** *** Statistics (lines 373-411) *)

(** [orbit_classes]: code, label and counter, in insertion order. *)
Definition orbit_classes : list (string * (string * Z)) :=
  [ ("PLA", ("Planets", 0%Z));
    ("DWA", ("Dwarf Planets", 0%Z));
    ("SAT", ("Moons", 0%Z));
    ("IEO", ("Atira", 0%Z));
    ("ATE", ("Aten", 0%Z));
    ("APO", ("Apollo", 0%Z));
    ("AMO", ("Amor", 0%Z));
    ("MCA", ("Mars-crossing Asteroid", 0%Z));
    ("IMB", ("Inner Main-belt Asteroid", 0%Z));
    ("MBA", ("Main-belt Asteroid", 0%Z));
    ("OMB", ("Outer Main-belt Asteroid", 0%Z));
    ("TJN", ("Jupiter Trojan", 0%Z));
    ("AST", ("Asteroid", 0%Z));
    ("CEN", ("Centaur", 0%Z));
    ("TNO", ("TransNeptunian Object", 0%Z));
    ("PAA", ("Parabolic " ++ q "Asteroid", 0%Z));
    ("HYA", ("Hyperbolic " ++ q "Asteroid", 0%Z)) ].

(** [oc[key][1] += 1]; [None] when [key] is not a key of [oc]. *)
Fixpoint increment (oc : list (string * (string * Z))) (key : string)
  : option (list (string * (string * Z))) :=
  match oc with
  | [] => None
  | (k, (label, n)) :: oc' =>
      if String.eqb k key then Some ((k, (label, n + 1)%Z) :: oc')
      else match increment oc' key with
           | Some oc'' => Some ((k, (label, n)) :: oc'')
           | None => None
           end
  end.

(** [orbit_classes[r[10]][1] += 1]. *)
Definition count_row (oc : list (string * (string * Z))) (r : row)
  : M (list (string * (string * Z))) :=
  match nth_error r 10 with
  | None => raise IndexError
  | Some (VStr code) =>
      match increment oc code with
      | Some oc' => ret oc'
      | None => raise (KeyError (VStr code))
      end
  | Some v => raise (KeyError v)
  end.

Definition table (oc : list (string * (string * Z))) : list (string * Z) :=
  map (fun item => (fst item ++ " (" ++ fst (snd item) ++ ")", snd (snd item))) oc.

Definition total_number_of_bodies (oc : list (string * (string * Z))) : Z :=
  fold_left (fun total item => (total + snd (snd item))%Z) oc 0%Z.

Definition total_line (total : Z) : string :=
  "Total number of bodies is " ++ str_of_Z total ++ " + 1 (Sun) = " ++
  str_of_Z (total + 1) ++ ".".

Definition statistics (s : Scenario) (jpl_horizons_data jpl_sb_data : list row) : M unit :=
  oc <- for_in jpl_horizons_data count_row orbit_classes ;;
  oc <- (if negb (scenario_eqb s planets_and_moons)
         then for_in jpl_sb_data count_row oc
         else ret oc) ;;
  print (Line "") ;;
  print (Table (table oc)) ;;
  print (Line "") ;;
  print (Line (total_line (total_number_of_bodies oc))).

(** *** The whole run *)

Definition run (E : Env) (dict : list (body_id * Body)) (args : Args) : M unit :=
  sanity_check args ;;
  print (Line ("Generating " ++ q (output args) ++ " file for the " ++
               q (scenario_name (scenario args)) ++ " scenario.")) ;;
  emit (Open (output args)) ;;
  writerow E (linesep E) header ;;
  jpl_horizons_data <- query_horizons E dict ;;
  writerows E (linesep E) jpl_horizons_data ;;
  print (Timing "NASA Horizons Database") ;;
  limit' <- adjust_limit (limit args) (Z.of_nat (List.length jpl_horizons_data)) ;;
  jpl_sb_data <- (if negb (scenario_eqb (scenario args) planets_and_moons)
                  then small_bodies E (scenario args) limit'
                  else ret []) ;;
  statistics (scenario args) jpl_horizons_data jpl_sb_data.

Definition main (E : Env) (args : Args) : M unit := run E major_bodies_dict args.

(** *** The [with] statement (line 48)

    [run] is the script when [open] gives a file.  [script] is the script
    with the two things [run] leaves out: [open] raises an [OSError] for a
    path it cannot open, and the file is closed, what was written being
    flushed, when the block of the [with] statement is left, by its end or
    by an exception. *)

(** Lines 49-411, the block of the [with] statement. *)
Definition block (E : Env) (dict : list (body_id * Body)) (args : Args) : M unit :=
  writerow E (linesep E) header ;;
  jpl_horizons_data <- query_horizons E dict ;;
  writerows E (linesep E) jpl_horizons_data ;;
  print (Timing "NASA Horizons Database") ;;
  limit' <- adjust_limit (limit args) (Z.of_nat (List.length jpl_horizons_data)) ;;
  jpl_sb_data <- (if negb (scenario_eqb (scenario args) planets_and_moons)
                  then small_bodies E (scenario args) limit'
                  else ret []) ;;
  statistics (scenario args) jpl_horizons_data jpl_sb_data.

(** [with open(path, 'w+', ...) as csvfile: body]. *)
Definition with_open (openable : bool) (path : string) (body : M unit) : M unit :=
  if openable
  then ((Open path :: fst body ++ [Close path])%list, snd body)
  else raise (OSError path).

Definition script (E : Env) (openable : string -> bool)
           (dict : list (body_id * Body)) (args : Args) : M unit :=
  sanity_check args ;;
  print (Line ("Generating " ++ q (output args) ++ " file for the " ++
               q (scenario_name (scenario args)) ++ " scenario.")) ;;
  with_open (openable (output args)) (output args) (block E dict args).

(** *** Reading a trace *)

(** The bytes written to the output file. *)
Fixpoint file_content (t : list event) : string :=
  match t with
  | [] => ""
  | Write d :: t' => d ++ file_content t'
  | _ :: t' => file_content t'
  end.

Definition is_network (ev : event) : bool :=
  match ev with
  | HorizonsQuery _ _ | HttpGet _ => true
  | _ => false
  end.

(** The requests sent to the two services, in order. *)
Definition network (t : list event) : list event := List.filter is_network t.

Fixpoint stdout (t : list event) : list console :=
  match t with
  | [] => []
  | Print c :: t' => c :: stdout t'
  | _ :: t' => stdout t'
  end.

End QueryData.

(* ===================================================================== *)
(** ** What a run is expected to do, and a sample environment *)
(* ===================================================================== *)

Module Expected.
Import PyStr Py QueryData.

(** The answer of Horizons for one entry of the dict. *)
Definition ephemeris_of (E : Env) (item : body_id * Body) : option Ephemeris :=
  horizons E (fst item) (location_query (snd item)).

(** The row the script builds for one entry, when Horizons answers. *)
Definition row_of (E : Env) (item : body_id * Body) : option row :=
  match ephemeris_of E item with
  | Some eph => Some (horizons_row eph (snd item))
  | None => None
  end.

Definition query_of (item : body_id * Body) : event :=
  HorizonsQuery (fst item) (location_query (snd item)).

Definition generating (args : Args) : console :=
  Line ("Generating " ++ q (output args) ++ " file for the " ++
        q (scenario_name (scenario args)) ++ " scenario.").

(** One line of the file. *)
Definition header_line (E : Env) : string := Csv.writerow (str E) (linesep E) header.

Definition major_line (E : Env) (r : row) : string := Csv.writerow (str E) (linesep E) r.

Definition small_line (E : Env) (r : row) : string :=
  Csv.writerow (str E) (",," ++ linesep E) r.

(** The trace of the major-body phase, up to line 298, when every query
    is answered: the rows are written after the last query. *)
Definition major_phase (E : Env) (dict : list (body_id * Body)) (args : Args)
           (rows : list row) : list event :=
  ([Print (generating args); Open (output args); Write (header_line E)]
     ++ map query_of dict
     ++ map (fun r => Write (major_line E r)) rows
     ++ [Print (Timing "NASA Horizons Database")])%list.

(** Records of the file that a trace wrote, as texts. *)
Fixpoint writes (t : list event) : list string :=
  match t with
  | [] => []
  | Write d :: t' => d :: writes t'
  | _ :: t' => writes t'
  end.

(** The class code of a row and whether [orbit_classes] knows it. *)
Definition known_code (r : row) : bool :=
  match nth_error r 10 with
  | Some (VStr code) => PyStr.mem_list code (map fst orbit_classes)
  | _ => false
  end.

(** The counter of a class; zero for a code that is not a key. *)
Fixpoint counter (oc : list (string * (string * Z))) (code : string) : Z :=
  match oc with
  | [] => 0%Z
  | (k, (_, n)) :: oc' => if String.eqb k code then n else counter oc' code
  end.

(** How many rows carry the class code. *)
Fixpoint occurrences (code : string) (rows : list row) : Z :=
  match rows with
  | [] => 0%Z
  | r :: rows' =>
      match nth_error r 10 with
      | Some (VStr c) => if String.eqb c code then (1 + occurrences code rows')%Z
                         else occurrences code rows'
      | _ => occurrences code rows'
      end
  end.

Definition sum_counts (tbl : list (string * Z)) : Z :=
  fold_right (fun item acc => (snd item + acc)%Z) 0%Z tbl.

(** The command line passes the sanity check: a limit is given exactly
    for scenario2. *)
Definition limit_matches_scenario (args : Args) : bool :=
  Bool.eqb (scenario_eqb (scenario args) scenario2) (is_some (limit args)).

(** Horizons answers the query of every entry, with these rows. *)
Definition answered (E : Env) (dict : list (body_id * Body)) (rows : list row) : Prop :=
  Forall2 (fun item r => row_of E item = Some r) dict rows.

(** [args.limit] after line 306, for [n] major bodies. *)
Definition adjusted_limit (args : Args) (n : Z) : option Z :=
  match limit args with
  | Some l => Some (l - (n + 1))%Z
  | None => None
  end.

(** The limit, when given, is at least [n + 1]. *)
Definition limit_reaches (args : Args) (n : Z) : bool :=
  match limit args with
  | Some l => negb (l <? n + 1)%Z
  | None => true
  end.

(** The message of the exception of line 302. *)
Definition limit_message (l n : Z) : string :=
  "-l/--limit (" ++ str_of_Z l ++
  ") must be at least as large as the number of planets and moons + 1 (" ++
  "accounting for the Sun) which is " ++ str_of_Z (n + 1) ++ "!".

(** The message of the exception of line 355. *)
Definition status_message (status : Z) : string :=
  "Error " ++ str_of_Z status ++ " performing request. For more information see " ++
  "https://ssd-api.jpl.nasa.gov/doc/sbdb_query.html#http-response-codes.".

(** The counters after the loops over [records]. *)
Definition add_counts (oc : list (string * (string * Z))) (records : list row)
  : list (string * (string * Z)) :=
  map (fun item =>
         (fst item, (fst (snd item), (snd (snd item) + occurrences (fst item) records)%Z)))
      oc.

(** The text of a line before the line separator: for a major body the
    record, for a small body the record and the two commas of its line
    terminator. *)
Definition major_record (E : Env) (r : row) : string :=
  Csv.record (linesep E) (map (str E) r).

Definition small_record (E : Env) (r : row) : string :=
  Csv.record (",," ++ linesep E) (map (str E) r) ++ ",,".

(** The URL of the small-body request of a run over [n] major bodies. *)
Definition small_body_url (args : Args) (n : Z) : string :=
  request_url (scenario args) (adjusted_limit args n).

(** The trace of a run up to the end of the small-body phase, line 365. *)
Definition small_phase (E : Env) (dict : list (body_id * Body)) (args : Args)
           (major small : list row) : list event :=
  (major_phase E dict args major
     ++ HttpGet (small_body_url args (Z.of_nat (List.length dict)))
     :: map (fun r => Write (small_line E r)) small
     ++ [Print (Timing "NASA JPL Small Body Database")])%list.

(** A text that is not empty and that the csv writer never quotes: no
    comma, no quote, no carriage return and no line feed. *)
Definition plain_text (s : string) : bool :=
  negb (String.eqb s "")
  && negb (existsb (fun c => Ascii.eqb c "," || Ascii.eqb c dq
                             || Ascii.eqb c cr || Ascii.eqb c lf) s).

(** How many bodies of the dict are of the class. *)
Fixpoint bodies_of_class (code : string) (dict : list (body_id * Body)) : Z :=
  match dict with
  | [] => 0%Z
  | item :: dict' =>
      if String.eqb (orbit_class (snd item)) code
      then (1 + bodies_of_class code dict')%Z
      else bodies_of_class code dict'
  end.

(** [orbit_classes] with the bodies of the dict counted. *)
Definition class_counts (dict : list (body_id * Body)) : list (string * (string * Z)) :=
  map (fun item =>
         (fst item, (fst (snd item), (snd (snd item) + bodies_of_class (fst item) dict)%Z)))
      orbit_classes.

(** [a == b] for two keys: a number and a name are never equal. *)
Definition id_eqb (a b : body_id) : bool :=
  match a, b with
  | IdInt n, IdInt m => (n =? m)%Z
  | IdStr s, IdStr t => String.eqb s t
  | _, _ => false
  end.

(** [dict[body]]. *)
Fixpoint getitem (dict : list (body_id * Body)) (body : body_id) : option Body :=
  match dict with
  | [] => None
  | (k, b) :: dict' => if id_eqb k body then Some b else getitem dict' body
  end.

(** No key is written twice in the dict literal. *)
Fixpoint distinct_keys (keys : list body_id) : bool :=
  match keys with
  | [] => true
  | k :: keys' => negb (List.existsb (id_eqb k) keys') && distinct_keys keys'
  end.

(** The type of [orbit_classes]. *)
Definition classes : Type := list (string * (string * Z)).

(** One more occurrence of [code]: what [increment] does to each item when
    the keys are distinct. *)
Definition bump (code : string) (item : string * (string * Z)) : string * (string * Z) :=
  (fst item, (fst (snd item),
              (snd (snd item) + (if String.eqb (fst item) code then 1 else 0))%Z)).

(** The records the statistics step goes over: the second loop is skipped
    for planets_and_moons. *)
Definition records (s : Scenario) (major small : list row) : list row :=
  (major ++ (if scenario_eqb s planets_and_moons then [] else small))%list.

(** The four prints that end a run. *)
Definition summary (oc : list (string * (string * Z))) : list event :=
  [Print (Line ""); Print (Table (table oc)); Print (Line "");
   Print (Line (total_line (total_number_of_bodies oc)))].

(** The logical form of the scenario1 filter: diameter and albedo are
    defined, and the class is not main-belt or the diameter is at least
    10 km. *)
Definition constrained_filter : SbdbFilter.filter :=
  SbdbFilter.And
    [ SbdbFilter.And [ SbdbFilter.Term "diameter" SbdbFilter.DF [];
                       SbdbFilter.Term "albedo" SbdbFilter.DF [] ];
      SbdbFilter.Or [ SbdbFilter.Term "class" SbdbFilter.NE ["MBA"];
                      SbdbFilter.Term "diameter" SbdbFilter.GE ["10"] ] ].

(** The form with the class equal to main-belt in the disjunction. *)
Definition class_equal_filter : SbdbFilter.filter :=
  SbdbFilter.And
    [ SbdbFilter.And [ SbdbFilter.Term "diameter" SbdbFilter.DF [];
                       SbdbFilter.Term "albedo" SbdbFilter.DF [] ];
      SbdbFilter.Or [ SbdbFilter.Term "class" SbdbFilter.EQ ["MBA"];
                      SbdbFilter.Term "diameter" SbdbFilter.GE ["10"] ] ].

(** The text of the scenario1 filter without white space. *)
Definition minified_query : string :=
  "{" ++ q "AND" ++ ":[{" ++ q "AND" ++ ":[" ++ q "diameter|DF" ++ "," ++ q "albedo|DF" ++
  "]},{" ++ q "OR" ++ ":[" ++ q "class|NE|MBA" ++ "," ++ q "diameter|GE|10" ++ "]}]}".

End Expected.

Module Sample.
Import PyStr Py QueryData.

(** An exact rendering of a float: sign, mantissa and binary exponent. *)
Definition str_float (f : float) : string :=
  match Prim2SF f with
  | S754_zero false => "0.0"
  | S754_zero true => "-0.0"
  | S754_infinity false => "inf"
  | S754_infinity true => "-inf"
  | S754_nan => "nan"
  | S754_finite s m e =>
      (if s then "-" else "") ++ str_of_Z (Zpos m) ++ "p" ++ str_of_Z e
  end.

(** Elements of the kind Horizons returns for Mercury at J2000. *)
Definition eph : Ephemeris :=
  mkEphemeris 0.2056 0.3871 7.005 48.33 29.12 174.8 2451544.5.

(** Two rows of the kind the Small-Body Database returns; the second has
    no albedo and a name with a comma. *)
Definition asteroids : list row :=
  [ [VStr "0.0785"; VStr "2.766"; VStr "10.59"; VStr "80.26"; VStr "73.64"; VStr "291.4";
     VStr "2461000.5"; VStr "3.33"; VStr "0.09"; VStr "939.4"; VStr "MBA";
     VStr "     1 Ceres (A801 AA)"];
    [VStr "0.2229"; VStr "1.458"; VStr "10.83"; VStr "304.3"; VStr "178.9"; VStr "310.6";
     VStr "2461000.5"; VStr "10.4"; VNone; VStr "16.84"; VStr "AMO";
     VStr "   433 Eros, (A898 PA)"] ].

Definition env (status : Z) (rows : list row) : Env :=
  mkEnv Posix str_float
        (fun _ _ => Some eph)
        (fun _ => Some (mkResponse status (Data rows))).

(** A dict of two entries. *)
Definition two_bodies : list (body_id * Body) :=
  [ (IdInt 399, mkBody "Earth" "PLA" "Sun" 5.972186e+24);
    (IdInt 301, mkBody "Luna" "SAT" "Earth" 7.345811e+22) ].

(** The rows of a dict when every query is answered with [eph]. *)
Definition rows_of (dict : list (body_id * Body)) : list row :=
  map (fun item => horizons_row eph (snd item)) dict.

Definition args_of (s : Scenario) (l : option Z) : Args := mkArgs "out.csv" s l.

End Sample.

(* ===================================================================== *)
(** ** Readers of what the script writes and sends *)
(* ===================================================================== *)

Module Reading.
Import PyStr Py QueryData Expected.

(** The text of a quoted field after its opening quote: a doubled quote is
    one quote, the closing quote ends the text. *)
Fixpoint undouble (s : string) : string :=
  match s with
  | EmptyString => EmptyString
  | String c s' =>
      if Ascii.eqb c dq then
        match s' with
        | String d s'' => if Ascii.eqb d dq then String dq (undouble s'') else undouble s'
        | EmptyString => EmptyString
        end
      else String c (undouble s')
  end.

(** The cell a raw field stands for. *)
Definition unfield (s : string) : string :=
  match s with
  | String c s' => if Ascii.eqb c dq then undouble s' else s
  | EmptyString => EmptyString
  end.

(** The rows the script takes from the answer to its request: those of an
    answer with status 200 and a [data] member. *)
Definition accepted (E : Env) (u : string) : option (list row) :=
  match requests_get E u with
  | Some resp => if (status_code resp =? 200)%Z then data resp else None
  | None => None
  end.

(** The characters of a URL that need no escaping: the unreserved ones, the
    slash, the percent sign of an escape and the separators [:?&=,]. *)
Definition url_char (c : ascii) : bool :=
  Urllib.safe c || mem c "%:?&=,".

(** The body of the dict with the name. *)
Fixpoint find_body (nm : string) (dict : list (body_id * Body)) : option Body :=
  match dict with
  | [] => None
  | item :: dict' =>
      if String.eqb (name (snd item)) nm then Some (snd item) else find_body nm dict'
  end.

(** A planet or a dwarf planet goes around the Sun; a moon goes around a
    planet or a dwarf planet of the dict. *)
Definition orbit_ok (dict : list (body_id * Body)) (b : Body) : bool :=
  if String.eqb (orbit_class b) "SAT" then
    negb (String.eqb (central_body b) "Sun")
    && match find_body (central_body b) dict with
       | Some parent =>
           (String.eqb (orbit_class parent) "PLA" || String.eqb (orbit_class parent) "DWA")
           && String.eqb (central_body parent) "Sun"
       | None => false
       end
  else
    (String.eqb (orbit_class b) "PLA" || String.eqb (orbit_class b) "DWA")
    && String.eqb (central_body b) "Sun".

(** No name is written twice. *)
Fixpoint distinct_names (names : list string) : bool :=
  match names with
  | [] => true
  | n :: names' => negb (mem_list n names') && distinct_names names'
  end.

(** The first three events of a run that passes the sanity check. *)
Definition opening (E : Env) (args : Args) : list event :=
  [Print (generating args); Open (output args); Write (header_line E)].

(** The exception of an answer that is not accepted: the request raised,
    the status is not 200, the text is not JSON ([json.loads] raises), it
    is JSON but no object or an object without [data] (the subscript
    raises). *)
Definition rejected_with (E : Env) (u : string) (e : exn) : Prop :=
  match requests_get E u with
  | None => e = ConnectionError
  | Some resp =>
      if (status_code resp =? 200)%Z then
        match text resp with
        | NotJSON => e = JSONDecodeError
        | NotAnObject => e = TypeError
        | NoDataMember => e = KeyError (VStr "data")
        | Data _ => False
        end
      else e = RuntimeError (status_message (status_code resp))
  end.

(** What the file holds when it is closed; [None] for a trace in which it
    is not closed. *)
Fixpoint closed_content (t : list event) : option string :=
  match t with
  | [] => None
  | Close _ :: _ => Some ""
  | Write d :: t' =>
      match closed_content t' with
      | Some rest => Some (d ++ rest)
      | None => None
      end
  | _ :: t' => closed_content t'
  end.

(** A reader of the whole file.  Outside quotes a comma ends a field and a
    line feed, a carriage return or a carriage return with its line feed
    ends a record; a quote switches between outside and inside.  The
    result is the records read so far, each with its raw fields, the last
    one being the record the end of the text is in. *)
Definition new_field (l : list (list string)) : list (list string) :=
  match l with
  | r :: rs => (EmptyString :: r) :: rs
  | [] => [[EmptyString; EmptyString]]
  end.

Definition push (c : ascii) (l : list (list string)) : list (list string) :=
  match l with
  | r :: rs => Csv.prepend (chr c) r :: rs
  | [] => [[chr c]]
  end.

Fixpoint read (in_quotes : bool) (s : string) : list (list string) :=
  match s with
  | EmptyString => [[EmptyString]]
  | String c s' =>
      if negb in_quotes && Ascii.eqb c "," then new_field (read false s')
      else if negb in_quotes && Ascii.eqb c lf then [EmptyString] :: read false s'
      else if negb in_quotes && Ascii.eqb c cr then
        match s' with
        | String d s'' =>
            if Ascii.eqb d lf then [EmptyString] :: read false s''
            else [EmptyString] :: read false s'
        | EmptyString => [EmptyString] :: read false s'
        end
      else push c (read (if Ascii.eqb c dq then negb in_quotes else in_quotes) s')
  end.

(** The records of a file: the text after the last line break is a record
    only if something is there. *)
Definition file_records (s : string) : list (list string) :=
  match rev (read false s) with
  | [EmptyString] :: earlier => rev earlier
  | _ => read false s
  end.

(** The cells of the records of a file. *)
Definition cells_of_file (s : string) : list (list string) :=
  map (map unfield) (file_records s).

(** A text that is one record for the reader: no line break outside
    quotes, and the quotes closed at its end. *)
Fixpoint one_record (in_quotes : bool) (s : string) : bool :=
  match s with
  | EmptyString => negb in_quotes
  | String c s' =>
      if negb in_quotes && (Ascii.eqb c lf || Ascii.eqb c cr) then false
      else one_record (if Ascii.eqb c dq then negb in_quotes else in_quotes) s'
  end.

(** A row whose line is one record for the reader: it has a cell, and on a
    platform whose line separator has no carriage return none of its cells
    has one (the writer quotes the characters of its line terminator
    only). *)
Definition line_safe (E : Env) (r : row) : bool :=
  negb (match r with [] => true | _ => false end)
  && match platform E with
     | Windows => true
     | Posix => forallb (fun v => negb (mem cr (str E v))) r
     end.

End Reading.

Module Cases.
Import PyStr Py QueryData.

(** An environment in which Horizons answers every query but the one for
    the body 301. *)
Definition env_without_301 : Env :=
  mkEnv Posix Sample.str_float
        (fun body _ => match body with
                       | IdInt 301 => None
                       | _ => Some Sample.eph
                       end)
        (fun _ => Some (mkResponse 200 (Data Sample.asteroids))).

(** A row of the Small-Body Database with a class code that
    [orbit_classes] does not have. *)
Definition comet_row : row :=
  [VStr "0.9671"; VStr "17.83"; VStr "162.3"; VStr "58.42"; VStr "111.3"; VStr "38.38";
   VStr "2449400.5"; VNone; VNone; VStr "11"; VStr "HTC"; VStr "1P/Halley"].

(** An environment whose request raises. *)
Definition env_offline : Env :=
  mkEnv Posix Sample.str_float (fun _ _ => Some Sample.eph) (fun _ => None).

(** An environment whose request is answered with the status 200 and an
    object without [data]. *)
Definition env_no_data : Env :=
  mkEnv Posix Sample.str_float (fun _ _ => Some Sample.eph)
        (fun _ => Some (mkResponse 200 NoDataMember)).

(** A path that [open] takes and one below a directory that is not there. *)
Definition openable (path : string) : bool := String.eqb path "out.csv".

Definition args_nodir (s : Scenario) (l : option Z) : Args := mkArgs "nodir/out.csv" s l.

End Cases.

(* ===================================================================== *)
(** * Properties *)
(* ===================================================================== *)

(** ** Strings *)

Section StringFacts.

Lemma append_assoc (s t u : string) : (s ++ t) ++ u = s ++ (t ++ u).
Proof.
  induction s as [|c s IH]; simpl; [reflexivity | now rewrite IH].
Qed.

Lemma append_nil_r (s : string) : s ++ "" = s.
Proof.
  induction s as [|c s IH]; simpl; [reflexivity | now rewrite IH].
Qed.

Lemma append_eq_nil (s t : string) : s ++ t = "" -> s = "" /\ t = "".
Proof.
  destruct s; simpl; [auto | discriminate].
Qed.

End StringFacts.

(** ** Percent-encoding *)

Section Percent.
Import PyStr Urllib.

(** One encoded byte decodes to itself, whatever follows it. *)
Lemma unquote_byte (c : ascii) (s : string) :
  unquote ((if safe c then chr c else quote_byte c) ++ s) = String c (unquote s).
Proof.
  destruct c as [[] [] [] [] [] [] [] []]; reflexivity.
Qed.

Lemma unquote_quote_app (s t : string) :
  unquote (quote s ++ t) = s ++ unquote t.
Proof.
  induction s as [|c s IH]; simpl.
  - reflexivity.
  - rewrite append_assoc, unquote_byte, IH. reflexivity.
Qed.

(** Decoding undoes encoding, for every string of bytes. *)
Lemma unquote_quote (s : string) : unquote (quote s) = s.
Proof.
  rewrite <- (append_nil_r (quote s)), unquote_quote_app.
  simpl. apply append_nil_r.
Qed.

(** The encoding holds safe characters and percent signs only. *)
Lemma quote_chars (s : string) :
  PyStr.existsb (fun c => negb (safe c || Ascii.eqb c "%")) (quote s) = false.
Proof.
  induction s as [|c s IH]; simpl; [reflexivity|].
  revert IH. generalize (quote s). intros r IH.
  destruct c as [[] [] [] [] [] [] [] []]; simpl; exact IH.
Qed.

End Percent.

(** ** The scenario1 filter *)

Section ConstrainedFilter.
Import PyStr QueryData Expected.

(** C1, as the code has it: for scenario1 the constraint is [&sb-cdata=]
    followed by the percent-encoded filter text without white space, and
    the logical form of that text is: diameter defined AND albedo defined,
    AND (class NOT EQUAL to main-belt OR diameter >= 10). *)
Theorem C1_constrained_filter :
  forall limit : option Z,
    constraint scenario1 limit = "&sb-cdata=" ++ Urllib.quote (strip_whitespace query)
    /\ strip_whitespace query = minified_query
    /\ SbdbFilter.parse (strip_whitespace query) = Some constrained_filter.
Proof.
  intros limit. repeat split; vm_compute; reflexivity.
Qed.

(** C1, as stated, fails: the logical form of the filter text is not the
    one whose disjunction has the class equal to main-belt. *)
Lemma C1_class_is_not_equal :
  SbdbFilter.parse (strip_whitespace query) <> Some class_equal_filter.
Proof.
  vm_compute. discriminate.
Qed.

(** C5: percent-decoding undoes percent-encoding on every text; for the
    scenario1 filter, decoding the encoded text and parsing it gives the
    logical form of the text before encoding, the one of the source text
    with its white space, with all five terms. *)
Theorem C5_filter_roundtrip :
  (forall s : string, Urllib.unquote (Urllib.quote s) = s)
  /\ SbdbFilter.parse (Urllib.unquote (Urllib.quote (strip_whitespace query)))
     = SbdbFilter.parse (strip_whitespace query)
  /\ SbdbFilter.parse (Urllib.unquote (Urllib.quote (strip_whitespace query)))
     = Some constrained_filter
  /\ SbdbFilter.parse query = Some constrained_filter.
Proof.
  split; [exact unquote_quote|].
  rewrite unquote_quote.
  repeat split; vm_compute; reflexivity.
Qed.

End ConstrainedFilter.

(** ** The monad of runs *)

Arguments QueryData.bind : simpl never.
Arguments QueryData.ret : simpl never.
Arguments QueryData.raise : simpl never.
Arguments QueryData.emit : simpl never.

Section Runs.
Import PyStr Py QueryData Expected.

Lemma bind_value {A B} (t : list event) (a : A) (k : A -> M B) :
  bind (t, inr a) k = ((t ++ fst (k a))%list, snd (k a)).
Proof.
  unfold bind. destruct (k a); reflexivity.
Qed.

Lemma bind_exn {A B} (t : list event) (e : exn) (k : A -> M B) :
  bind (t, inl e) k = (t, inl e).
Proof. reflexivity. Qed.

Lemma bind_ret {A B} (a : A) (k : A -> M B) : bind (ret a) k = k a.
Proof.
  unfold ret. rewrite bind_value. simpl. destruct (k a); reflexivity.
Qed.

Lemma bind_nil {A B} (a : A) (k : A -> M B) : bind ([], inr a) k = k a.
Proof. exact (bind_ret a k). Qed.

Lemma bind_emit {B} (ev : event) (k : unit -> M B) :
  bind (emit ev) k = (ev :: fst (k tt), snd (k tt)).
Proof.
  unfold emit. rewrite bind_value. reflexivity.
Qed.

Lemma bind_assoc {A B C} (m : M A) (k : A -> M B) (h : B -> M C) :
  bind (bind m k) h = bind m (fun a => bind (k a) h).
Proof.
  destruct m as [t [e|a]]; unfold bind; [reflexivity|].
  destruct (k a) as [t1 [e1|b]]; [reflexivity|].
  destruct (h b) as [t2 r2]. now rewrite app_assoc.
Qed.

Lemma pair_eta {A B} (p : A * B) : p = (fst p, snd p).
Proof. destruct p; reflexivity. Qed.

(** [writerows] writes one line per row, in order, and never raises. *)
Lemma writerows_trace (E : Env) (lt : string) (rows : list row) :
  writerows E lt rows = (map (fun r => Write (Csv.writerow (str E) lt r)) rows, inr tt).
Proof.
  unfold writerows.
  induction rows as [|r rows IH]; simpl; [reflexivity|].
  unfold writerow at 1, write. rewrite bind_emit, IH. reflexivity.
Qed.

(** The sanity check passes exactly when a limit comes with scenario2 and
    only with it; a run that fails it has done nothing. *)
Lemma sanity_check_passes (args : Args) :
  limit_matches_scenario args = true -> sanity_check args = ([], inr tt).
Proof.
  unfold limit_matches_scenario, sanity_check.
  destruct (scenario_eqb (scenario args) scenario2), (is_some (limit args));
    simpl; intros H; try discriminate H; reflexivity.
Qed.

Lemma sanity_check_fails (args : Args) :
  limit_matches_scenario args = false ->
  sanity_check args =
    ([], inl (ValueError
                (if scenario_eqb (scenario args) scenario2
                 then "-l/--limit must be provided for -s/--scenario scenario2"
                 else "-l/--limit may only be used with -s/--scenario scenario2"))).
Proof.
  unfold limit_matches_scenario, sanity_check.
  destruct (scenario_eqb (scenario args) scenario2), (is_some (limit args));
    simpl; intros H; try discriminate H; reflexivity.
Qed.

(** The loop over the dict, when every query is answered. *)
Lemma query_horizons_from (E : Env) (dict : list (body_id * Body)) (rows acc : list row) :
  answered E dict rows ->
  for_in dict
    (fun jpl_horizons_data item =>
       eph <- elements E (fst item) (location_query (snd item)) ;;
       ret (jpl_horizons_data ++ [horizons_row eph (snd item)])%list)
    acc
  = (map query_of dict, inr (acc ++ rows)%list).
Proof.
  intros H. revert acc.
  induction H as [|item r dict rows Hr _ IH]; intros acc; simpl.
  - now rewrite app_nil_r.
  - unfold row_of, ephemeris_of in Hr.
    unfold elements at 1.
    destruct (horizons E (fst item) (location_query (snd item))) as [eph|] eqn:Heph;
      [|discriminate Hr].
    injection Hr as <-.
    rewrite !bind_assoc, bind_emit, !bind_ret, IH. simpl.
    now rewrite <- app_assoc.
Qed.

Lemma query_horizons_answered (E : Env) (dict : list (body_id * Body)) (rows : list row) :
  answered E dict rows ->
  query_horizons E dict = (map query_of dict, inr rows).
Proof.
  intros H. unfold query_horizons. now rewrite (query_horizons_from E dict rows []).
Qed.

Lemma answered_length (E : Env) dict rows :
  answered E dict rows -> List.length rows = List.length dict.
Proof.
  induction 1; simpl; congruence.
Qed.

(** A run that passes the sanity check and whose queries are answered
    goes through the major-body phase and reaches line 300. *)
Lemma run_major_phase (E : Env) dict args rows :
  limit_matches_scenario args = true ->
  answered E dict rows ->
  run E dict args =
    bind (major_phase E dict args rows, inr tt)
         (fun _ =>
            limit' <- adjust_limit (limit args) (Z.of_nat (List.length dict)) ;;
            jpl_sb_data <- (if negb (scenario_eqb (scenario args) planets_and_moons)
                            then small_bodies E (scenario args) limit'
                            else ret []) ;;
            statistics (scenario args) rows jpl_sb_data).
Proof.
  intros Hs Ha. unfold run.
  rewrite (sanity_check_passes _ Hs), (query_horizons_answered _ _ _ Ha).
  rewrite <- (answered_length _ _ _ Ha).
  unfold print, writerow, write, emit.
  repeat (first [rewrite writerows_trace | rewrite bind_value]; cbv beta; cbn [fst snd]).
  unfold major_phase, header_line, major_line, generating.
  cbn [app]. rewrite <- !app_assoc. reflexivity.
Qed.

(** Lines 300-306. *)
Lemma adjust_limit_reaches (args : Args) (n : Z) :
  limit_reaches args n = true ->
  adjust_limit (limit args) n = ([], inr (adjusted_limit args n)).
Proof.
  unfold limit_reaches, adjusted_limit, adjust_limit, raise_if.
  destruct (limit args) as [l|]; [|reflexivity].
  destruct (l <? n + 1)%Z; [discriminate|]. intros _.
  now rewrite bind_ret.
Qed.

Lemma adjust_limit_below (l n : Z) :
  (l < n + 1)%Z ->
  adjust_limit (Some l) n = ([], inl (ValueError (limit_message l n))).
Proof.
  intros H. unfold adjust_limit, raise_if.
  apply Z.ltb_lt in H. rewrite H. reflexivity.
Qed.

(** The small-body phase when the service answers 200 with rows. *)
Lemma small_bodies_rows (E : Env) (s : Scenario) (l : option Z) resp rows :
  requests_get E (request_url s l) = Some resp ->
  status_code resp = 200%Z ->
  data resp = Some rows ->
  small_bodies E s l =
    ((HttpGet (request_url s l) :: map (fun r => Write (small_line E r)) rows
        ++ [Print (Timing "NASA JPL Small Body Database")])%list,
     inr rows).
Proof.
  intros Hget Hstatus Hdata. unfold small_bodies.
  unfold data in Hdata. destruct (text resp) as [| | |rows'] eqn:Htext; try discriminate Hdata.
  injection Hdata as ->.
  rewrite Hget, Hstatus, Htext. unfold raise_if, print, emit, ret.
  cbn [Z.eqb Pos.eqb negb].
  repeat (first [rewrite writerows_trace | rewrite bind_value]; cbv beta; cbn [fst snd]).
  unfold small_line. cbn [app]. reflexivity.
Qed.


End Runs.

(** ** The tally of orbit classes *)

Section Tally.
Import PyStr Py QueryData Expected.

Local Open Scope Z_scope.

Lemma for_in_app {A S : Type} (l1 l2 : list A) (body : S -> A -> M S) (s : S) :
  for_in (l1 ++ l2) body s = bind (for_in l1 body s) (for_in l2 body).
Proof.
  revert s. induction l1 as [|x l1 IH]; intros s; cbn [for_in app].
  - now rewrite bind_ret.
  - rewrite bind_assoc. destruct (body s x) as [t [e|s']]; [reflexivity|].
    rewrite !bind_value. now rewrite IH.
Qed.

Lemma fold_total (oc : classes) (a : Z) :
  fold_left (fun total item => total + snd (snd item)) oc a
  = a + total_number_of_bodies oc.
Proof.
  unfold total_number_of_bodies. revert a.
  induction oc as [|x oc IH]; intros a; cbn [fold_left].
  - lia.
  - rewrite IH, (IH (0 + _)). lia.
Qed.

Lemma total_cons (x : string * (string * Z)) (oc : classes) :
  total_number_of_bodies (x :: oc) = snd (snd x) + total_number_of_bodies oc.
Proof.
  unfold total_number_of_bodies at 1. cbn [fold_left]. rewrite fold_total. lia.
Qed.

(** The loop of lines 408-410 adds up the counters the table shows. *)
Lemma total_is_sum_of_table (oc : classes) :
  total_number_of_bodies oc = sum_counts (table oc).
Proof.
  induction oc as [|x oc IH]; [reflexivity|].
  rewrite total_cons, IH. reflexivity.
Qed.

Lemma table_length (oc : classes) : List.length (table oc) = List.length oc.
Proof. apply length_map. Qed.

Lemma increment_unknown (oc : classes) (code : string) :
  mem_list code (map fst oc) = false <-> increment oc code = None.
Proof.
  unfold mem_list.
  induction oc as [|[k [l n]] oc IH]; cbn [increment map List.existsb fst].
  - tauto.
  - rewrite String.eqb_sym. destruct (String.eqb k code); cbn [orb].
    + split; discriminate.
    + rewrite IH. destruct (increment oc code); split; congruence.
Qed.

Lemma increment_known (oc : classes) (code : string) :
  mem_list code (map fst oc) = true -> exists oc', increment oc code = Some oc'.
Proof.
  intros H. destruct (increment oc code) as [oc'|] eqn:Hinc; [eauto|].
  apply increment_unknown in Hinc. congruence.
Qed.

Lemma bump_other (oc : classes) (code : string) :
  mem_list code (map fst oc) = false -> map (bump code) oc = oc.
Proof.
  unfold mem_list.
  induction oc as [|[k [l n]] oc IH]; cbn [map List.existsb fst]; [reflexivity|].
  rewrite String.eqb_sym. intros H. apply orb_false_elim in H as [Hk Hoc].
  rewrite (IH Hoc). unfold bump. cbn [fst snd]. rewrite Hk.
  now rewrite Z.add_0_r.
Qed.

(** With distinct keys, [increment] bumps the item of the code and no
    other. *)
Lemma increment_bump (oc oc' : classes) (code : string) :
  NoDup (map fst oc) ->
  increment oc code = Some oc' ->
  oc' = map (bump code) oc.
Proof.
  revert oc'.
  induction oc as [|[k [l n]] oc IH]; intros oc' Hnd Hinc; cbn [increment] in Hinc.
  - discriminate.
  - cbn [map fst] in Hnd. inversion Hnd as [|? ? Hnotin Hnd']; subst.
    cbn [map]. unfold bump at 1. cbn [fst snd].
    destruct (String.eqb k code) eqn:Hk.
    + injection Hinc as <-. apply String.eqb_eq in Hk. subst code.
      rewrite bump_other; [reflexivity|].
      unfold mem_list. apply not_true_is_false. intros Hex.
      apply List.existsb_exists in Hex as [x [Hin Hx]].
      apply String.eqb_eq in Hx. subst x. contradiction.
    + destruct (increment oc code) as [oc''|] eqn:Hinc'; [|discriminate].
      injection Hinc as <-. rewrite (IH oc'' Hnd' eq_refl).
      now rewrite Z.add_0_r.
Qed.

Lemma bump_keys (code : string) (oc : classes) :
  map fst (map (bump code) oc) = map fst oc.
Proof.
  rewrite map_map. apply map_ext. reflexivity.
Qed.

Lemma add_counts_nil (oc : classes) : add_counts oc [] = oc.
Proof.
  unfold add_counts. cbn [occurrences].
  rewrite <- (map_id oc) at 2. apply map_ext.
  intros [k [l n]]. cbn [fst snd]. now rewrite Z.add_0_r.
Qed.

Lemma add_counts_cons (oc : classes) (r : row) (rows : list row) (code : string) :
  nth_error r 10 = Some (VStr code) ->
  add_counts (map (bump code) oc) rows = add_counts oc (r :: rows).
Proof.
  intros Hr. unfold add_counts. rewrite map_map. apply map_ext.
  intros [k [l n]]. unfold bump. cbn [fst snd occurrences]. rewrite Hr.
  rewrite (String.eqb_sym k code).
  destruct (String.eqb code k); f_equal; f_equal; lia.
Qed.

Lemma add_counts_keys (oc : classes) (rows : list row) :
  map fst (add_counts oc rows) = map fst oc.
Proof.
  unfold add_counts. rewrite map_map. apply map_ext. reflexivity.
Qed.

(** [count_row] on a row whose code is a key, and on any other row. *)
Lemma count_row_known (oc : classes) (r : row) :
  NoDup (map fst oc) ->
  map fst oc = map fst orbit_classes ->
  known_code r = true ->
  exists code, nth_error r 10 = Some (VStr code)
               /\ count_row oc r = ([], inr (map (bump code) oc)).
Proof.
  intros Hnd Hkeys Hknown. unfold known_code in Hknown. unfold count_row.
  destruct (nth_error r 10) as [[|code|?|?]|]; try discriminate Hknown.
  exists code. split; [reflexivity|].
  rewrite <- Hkeys in Hknown.
  destruct (increment_known _ _ Hknown) as [oc' Hinc]. rewrite Hinc.
  now rewrite (increment_bump _ _ _ Hnd Hinc).
Qed.

Lemma count_row_unknown (oc : classes) (r : row) :
  map fst oc = map fst orbit_classes ->
  known_code r = false ->
  exists e, count_row oc r = ([], inl e) /\ is_LookupError e = true.
Proof.
  intros Hkeys Hknown. unfold known_code in Hknown. unfold count_row.
  destruct (nth_error r 10) as [[|code|?|?]|]; try (eexists; split; reflexivity).
  rewrite <- Hkeys in Hknown. apply increment_unknown in Hknown. rewrite Hknown.
  eexists; split; reflexivity.
Qed.

(** The loop over the records: all codes known, the counters are those of
    [add_counts]; some code unknown, a lookup error and nothing else. *)
Lemma count_loop_known (rows : list row) (oc : classes) :
  NoDup (map fst oc) ->
  map fst oc = map fst orbit_classes ->
  forallb known_code rows = true ->
  for_in rows count_row oc = ([], inr (add_counts oc rows)).
Proof.
  revert oc. induction rows as [|r rows IH]; intros oc Hnd Hkeys Hall; cbn [for_in].
  - now rewrite add_counts_nil.
  - cbn [forallb] in Hall. apply andb_prop in Hall as [Hr Hrows].
    destruct (count_row_known oc r Hnd Hkeys Hr) as [code [Hcode Hcount]].
    rewrite Hcount, bind_value. cbv beta.
    rewrite IH; [| now rewrite bump_keys | now rewrite bump_keys | exact Hrows].
    cbn [fst snd app]. now rewrite (add_counts_cons oc r rows code Hcode).
Qed.

Lemma count_loop_unknown (rows : list row) (oc : classes) :
  NoDup (map fst oc) ->
  map fst oc = map fst orbit_classes ->
  forallb known_code rows = false ->
  exists e, for_in rows count_row oc = ([], inl e) /\ is_LookupError e = true.
Proof.
  revert oc. induction rows as [|r rows IH]; intros oc Hnd Hkeys Hall; cbn [for_in].
  - discriminate Hall.
  - cbn [forallb] in Hall. destruct (known_code r) eqn:Hr.
    + destruct (count_row_known oc r Hnd Hkeys Hr) as [code [Hcode Hcount]].
      rewrite Hcount, bind_value. cbv beta.
      destruct (IH (map (bump code) oc)) as [e [He Hlook]];
        [now rewrite bump_keys | now rewrite bump_keys | exact Hall |].
      exists e. rewrite He. split; [reflexivity | exact Hlook].
    + destruct (count_row_unknown oc r Hkeys Hr) as [e [He Hlook]].
      exists e. rewrite He, bind_exn. split; [reflexivity | exact Hlook].
Qed.

Lemma orbit_classes_keys_distinct : NoDup (map fst orbit_classes).
Proof.
  cbn [map fst orbit_classes].
  repeat (constructor; [cbn [In]; intros H;
                        repeat (destruct H as [H|H]; [discriminate H|]); exact H|]).
  constructor.
Qed.

Lemma statistics_loops (s : Scenario) (major small : list row) :
  statistics s major small =
    bind (for_in (records s major small) count_row orbit_classes)
         (fun oc =>
            print (Line "") ;; print (Table (table oc)) ;; print (Line "") ;;
            print (Line (total_line (total_number_of_bodies oc)))).
Proof.
  unfold statistics, records. rewrite for_in_app, bind_assoc.
  destruct (scenario_eqb s planets_and_moons); cbn [negb for_in]; [|reflexivity].
  f_equal.
Qed.

Lemma statistics_known (s : Scenario) (major small : list row) :
  forallb known_code (records s major small) = true ->
  statistics s major small =
    (summary (add_counts orbit_classes (records s major small)), inr tt).
Proof.
  intros H. rewrite statistics_loops.
  rewrite (count_loop_known _ _ orbit_classes_keys_distinct eq_refl H).
  unfold print, emit.
  repeat (rewrite bind_value; cbv beta; cbn [fst snd]).
  reflexivity.
Qed.

Lemma statistics_unknown (s : Scenario) (major small : list row) :
  forallb known_code (records s major small) = false ->
  exists e, statistics s major small = ([], inl e) /\ is_LookupError e = true.
Proof.
  intros H. rewrite statistics_loops.
  destruct (count_loop_unknown _ _ orbit_classes_keys_distinct eq_refl H) as [e [He Hl]].
  exists e. rewrite He, bind_exn. split; [reflexivity | exact Hl].
Qed.

End Tally.

(** ** The phases of a run *)

Section Phases.
Import PyStr Py QueryData Expected.

Variable E : Env.
Variable dict : list (body_id * Body).
Variable args : Args.
Variable major : list row.

Hypothesis Hargs : limit_matches_scenario args = true.
Hypothesis Hmajor : answered E dict major.

Let n : Z := Z.of_nat (List.length dict).

(** A limit below the minimum ends the run at line 302, after the
    major-body phase. *)
Lemma run_limit_below (l : Z) :
  limit args = Some l ->
  (l < n + 1)%Z ->
  run E dict args = (major_phase E dict args major, inl (ValueError (limit_message l n))).
Proof.
  intros Hl Hlow. rewrite (run_major_phase E dict args major Hargs Hmajor).
  fold n. rewrite Hl, (adjust_limit_below l _ Hlow), bind_exn, bind_value. cbv beta.
  cbn [fst snd]. now rewrite app_nil_r.
Qed.

(** planets_and_moons: the statistics follow the major-body phase. *)
Lemma run_planets_and_moons :
  scenario args = planets_and_moons ->
  run E dict args =
    bind (major_phase E dict args major, inr tt)
         (fun _ => statistics planets_and_moons major []).
Proof.
  intros Hs. rewrite (run_major_phase E dict args major Hargs Hmajor).
  assert (Hl : limit args = None).
  { revert Hargs. unfold limit_matches_scenario. rewrite Hs.
    destruct (limit args); [discriminate | reflexivity]. }
  rewrite Hs, Hl. cbn [adjust_limit scenario_eqb negb]. now rewrite !bind_ret.
Qed.

(** The other scenarios, when the limit reaches the minimum: the
    small-body phase follows the major-body phase. *)
Lemma run_reaches_small_bodies :
  scenario args <> planets_and_moons ->
  limit_reaches args n = true ->
  run E dict args =
    bind (major_phase E dict args major, inr tt)
         (fun _ =>
            jpl_sb_data <- small_bodies E (scenario args) (adjusted_limit args n) ;;
            statistics (scenario args) major jpl_sb_data).
Proof.
  intros Hs Hl. rewrite (run_major_phase E dict args major Hargs Hmajor).
  fold n. rewrite (adjust_limit_reaches args n Hl), bind_nil.
  destruct (scenario args); [contradiction|reflexivity..].
Qed.

Lemma run_small_bodies_rows (resp : Response) (small : list row) :
  scenario args <> planets_and_moons ->
  limit_reaches args n = true ->
  requests_get E (small_body_url args n) = Some resp ->
  status_code resp = 200%Z ->
  data resp = Some small ->
  run E dict args =
    bind (small_phase E dict args major small, inr tt)
         (fun _ => statistics (scenario args) major small).
Proof.
  intros Hs Hl Hget Hstatus Hdata.
  rewrite (run_reaches_small_bodies Hs Hl).
  rewrite (small_bodies_rows E _ _ resp small Hget Hstatus Hdata).
  rewrite !bind_value. cbv beta. cbn [fst snd].
  unfold small_phase, small_body_url. fold n.
  rewrite <- !app_assoc. reflexivity.
Qed.


End Phases.

(** What the phases write and request. *)
Section TraceFacts.
Import PyStr Py QueryData Expected.

Lemma writes_app (t u : list event) : writes (t ++ u) = (writes t ++ writes u)%list.
Proof.
  induction t as [|ev t IH]; [reflexivity|].
  destruct ev; cbn [writes app]; try exact IH. now rewrite IH.
Qed.

Lemma writes_queries (dict : list (body_id * Body)) : writes (map query_of dict) = [].
Proof.
  induction dict as [|x dict IH]; [reflexivity | exact IH].
Qed.

Lemma writes_lines {A} (f : A -> string) (l : list A) :
  writes (map (fun x => Write (f x)) l) = map f l.
Proof.
  induction l as [|x l IH]; cbn [writes map]; [reflexivity | now rewrite IH].
Qed.

Lemma writes_major_phase E dict args rows :
  writes (major_phase E dict args rows) = header_line E :: map (major_line E) rows.
Proof.
  unfold major_phase. cbn [app writes].
  rewrite !writes_app, writes_queries, writes_lines. cbn [writes app].
  now rewrite app_nil_r.
Qed.

Lemma network_app (t u : list event) : network (t ++ u) = (network t ++ network u)%list.
Proof. apply filter_app. Qed.

Lemma network_queries (dict : list (body_id * Body)) :
  network (map query_of dict) = map query_of dict.
Proof.
  induction dict as [|x dict IH]; [reflexivity|].
  cbn [map network List.filter is_network query_of]. f_equal. exact IH.
Qed.

Lemma network_lines {A} (f : A -> string) (l : list A) :
  network (map (fun x => Write (f x)) l) = [].
Proof.
  induction l as [|x l IH]; [reflexivity | exact IH].
Qed.

Lemma network_major_phase E dict args rows :
  network (major_phase E dict args rows) = map query_of dict.
Proof.
  unfold major_phase. cbn [app network List.filter is_network].
  change (List.filter is_network) with network.
  rewrite !network_app, network_queries, network_lines. cbn [network List.filter is_network app].
  now rewrite app_nil_r.
Qed.

(** The file holds the texts written, one after the other. *)
Lemma file_content_writes (t : list event) :
  file_content t = PyStr.join "" (writes t).
Proof.
  induction t as [|ev t IH]; [reflexivity|].
  destruct ev; cbn [file_content writes]; try exact IH.
  rewrite IH. destruct (writes t); cbn [join]; [now rewrite append_nil_r | reflexivity].
Qed.

End TraceFacts.

(** ** Validation, limit and transport errors *)

Section Errors.
Import PyStr Py QueryData Expected.

Lemma network_bind {A B} (m : M A) (k : A -> M B) :
  network (fst (bind m k)) =
    (network (fst m) ++ match snd m with
                        | inr a => network (fst (k a))
                        | inl _ => []
                        end)%list.
Proof.
  destruct m as [t [e|a]].
  - rewrite bind_exn. cbn [fst snd]. now rewrite app_nil_r.
  - rewrite bind_value. cbn [fst snd]. apply network_app.
Qed.

(** The statistics step prints and does nothing else. *)
Lemma statistics_trace (s : Scenario) (major small : list row) :
  fst (statistics s major small) = []
  \/ fst (statistics s major small) = summary (add_counts orbit_classes (records s major small)).
Proof.
  destruct (forallb known_code (records s major small)) eqn:H.
  - right. now rewrite (statistics_known s major small H).
  - left. destruct (statistics_unknown s major small H) as [e [He _]]. now rewrite He.
Qed.

Lemma statistics_network (s : Scenario) (major small : list row) :
  network (fst (statistics s major small)) = [].
Proof.
  destruct (statistics_trace s major small) as [H|H]; rewrite H; reflexivity.
Qed.

Lemma statistics_writes (s : Scenario) (major small : list row) :
  writes (fst (statistics s major small)) = [].
Proof.
  destruct (statistics_trace s major small) as [H|H]; rewrite H; reflexivity.
Qed.

(** The small-body phase sends one request, whatever the answer. *)
Lemma small_bodies_network (E : Env) (s : Scenario) (l : option Z) :
  network (fst (small_bodies E s l)) = [HttpGet (request_url s l)].
Proof.
  unfold small_bodies. unfold emit at 1. rewrite bind_value. cbv beta. cbn [fst].
  cbn [app network List.filter is_network]. f_equal.
  change (List.filter is_network) with network.
  destruct (requests_get E (request_url s l)) as [resp|]; [|reflexivity].
  rewrite network_bind. unfold raise_if.
  destruct (negb (status_code resp =? 200)%Z); [reflexivity|].
  cbn [ret fst snd network List.filter app].
  destruct (text resp) as [| | |rows]; try reflexivity.
  rewrite writerows_trace, bind_value. cbv beta. unfold print, emit.
  rewrite bind_value. cbn [fst snd].
  change (List.filter is_network) with network.
  rewrite network_app, network_lines. reflexivity.
Qed.

(** C4: scenario2 with limit [L] over [N] major bodies, all fetched.  When
    [L < N + 1] the run ends with a [ValueError] whose message ends with the
    minimum [N + 1]; otherwise the requests are the [N] Horizons queries and
    then one request to the Small-Body Database whose constraint is
    [&limit=] followed by [L - N - 1]. *)
Theorem C4_limit_cap (E : Env) (dict : list (body_id * Body)) (args : Args)
        (major : list row) (L : Z) :
  scenario args = scenario2 ->
  limit args = Some L ->
  answered E dict major ->
  let N := Z.of_nat (List.length dict) in
  ((L < N + 1)%Z ->
   run E dict args =
     (major_phase E dict args major,
      inl (ValueError
             ("-l/--limit (" ++ str_of_Z L ++
              ") must be at least as large as the number of planets and moons + 1 (" ++
              "accounting for the Sun) which is " ++ str_of_Z (N + 1) ++ "!"))))
  /\ ((N + 1 <= L)%Z ->
      network (fst (run E dict args)) =
        (map query_of dict
           ++ [HttpGet (url ++ "?" ++ fields ++ "&limit=" ++ str_of_Z (L - N - 1)
                            ++ "&sb-kind=a")])%list).
Proof.
  intros Hs Hl Hmajor N.
  assert (Hargs : limit_matches_scenario args = true).
  { unfold limit_matches_scenario. now rewrite Hs, Hl. }
  split; intros HL.
  - exact (run_limit_below E dict args major Hargs Hmajor L Hl HL).
  - assert (Hreach : limit_reaches args N = true).
    { unfold limit_reaches. rewrite Hl. apply negb_true_iff, Z.ltb_ge. exact HL. }
    assert (Hpm : scenario args <> planets_and_moons) by (rewrite Hs; discriminate).
    rewrite (run_reaches_small_bodies E dict args major Hargs Hmajor Hpm Hreach).
    rewrite network_bind. cbn [fst snd].
    rewrite network_major_phase, network_bind, small_bodies_network.
    assert (Hstat : forall r : exn + list row,
               match r with
               | inr a => network (fst (statistics (scenario args) major a))
               | inl _ => []
               end = []).
    { intros [e|a]; [reflexivity | apply statistics_network]. }
    rewrite Hstat, app_nil_r. fold N.
    unfold adjusted_limit, request_url, constraint, format_limit. rewrite Hs, Hl.
    replace (L - (N + 1))%Z with (L - N - 1)%Z by lia.
    reflexivity.
Qed.

(** C2, as the code has it: a limit without scenario2, or scenario2 without
    a limit, ends the run with a [ValueError] before any event at all; a
    limit below the minimum ends it with a [ValueError] after the
    major-body phase, whose requests are the Horizons queries of all
    entries, and before any request to the Small-Body Database. *)
Theorem C2_validation_errors (E : Env) (dict : list (body_id * Body)) (args : Args) :
  (limit_matches_scenario args = false ->
   run E dict args =
     ([], inl (ValueError
                 (if scenario_eqb (scenario args) scenario2
                  then "-l/--limit must be provided for -s/--scenario scenario2"
                  else "-l/--limit may only be used with -s/--scenario scenario2"))))
  /\ (forall (major : list row) (L : Z),
         scenario args = scenario2 ->
         limit args = Some L ->
         answered E dict major ->
         (L < Z.of_nat (List.length dict) + 1)%Z ->
         run E dict args
         = (major_phase E dict args major,
            inl (ValueError (limit_message L (Z.of_nat (List.length dict)))))
         /\ network (fst (run E dict args)) = map query_of dict
         /\ writes (fst (run E dict args)) = header_line E :: map (major_line E) major).
Proof.
  split.
  - intros H. unfold run. now rewrite (sanity_check_fails args H), bind_exn.
  - intros major L Hs Hl Hmajor HL.
    assert (Hargs : limit_matches_scenario args = true).
    { unfold limit_matches_scenario. now rewrite Hs, Hl. }
    rewrite (run_limit_below E dict args major Hargs Hmajor L Hl HL).
    split; [reflexivity|]. cbn [fst].
    split; [apply network_major_phase | apply writes_major_phase].
Qed.

End Errors.

(** ** The printed totals *)

Section Totals.
Import PyStr Py QueryData Expected.

Lemma bind_success {A B} (m : M A) (k : A -> M B) (t : list event) (b : B) :
  bind m k = (t, inr b) ->
  exists t1 a t2, m = (t1, inr a) /\ k a = (t2, inr b) /\ t = (t1 ++ t2)%list.
Proof.
  destruct m as [t1 [e|a]].
  - rewrite bind_exn. discriminate.
  - rewrite bind_value. intros H. injection H as Ht Hb.
    exists t1, a, (fst (k a)). rewrite <- Hb, <- Ht.
    split; [reflexivity|]. split; [apply pair_eta | reflexivity].
Qed.

Lemma stdout_app (t u : list event) : stdout (t ++ u) = (stdout t ++ stdout u)%list.
Proof.
  induction t as [|ev t IH]; [reflexivity|].
  destruct ev; cbn [stdout app]; try exact IH. now rewrite IH.
Qed.

(** A run that ends well ends with the statistics of the rows it got. *)
Lemma run_success (E : Env) (dict : list (body_id * Body)) (args : Args) (t : list event) :
  run E dict args = (t, inr tt) ->
  exists t1 t2 major small,
    t = (t1 ++ t2)%list /\ statistics (scenario args) major small = (t2, inr tt).
Proof.
  unfold run. intros H.
  repeat match type of H with
         | bind _ _ = _ =>
             let t1 := fresh "t" in
             let a := fresh "a" in
             let H1 := fresh "H" in
             apply bind_success in H as (t1 & a & ? & H1 & H & ->)
         end.
  repeat match goal with
         | |- context [(?t1 ++ (?t2 ++ ?t3))%list] => rewrite (app_assoc t1 t2 t3)
         end.
  do 4 eexists. split; [reflexivity | exact H].
Qed.

(** C7: in every run that ends well, the last four prints are an empty
    line, the table of the 17 counters, an empty line and the line of the
    totals: the total is the sum of the counters of the table and the grand
    total is that sum plus one. *)
Theorem C7_printed_totals (E : Env) (dict : list (body_id * Body)) (args : Args)
        (t : list event) :
  run E dict args = (t, inr tt) ->
  exists (before : list console) (tbl : list (string * Z)),
    stdout t =
      (before ++
       [Line ""; Table tbl; Line "";
        Line ("Total number of bodies is " ++ str_of_Z (sum_counts tbl) ++
              " + 1 (Sun) = " ++ str_of_Z (sum_counts tbl + 1) ++ ".")])%list
    /\ List.length tbl = 17%nat
    /\ map fst tbl = map fst (table orbit_classes).
Proof.
  intros H. destruct (run_success E dict args t H) as (t1 & t2 & major & small & -> & Hstat).
  destruct (forallb known_code (records (scenario args) major small)) eqn:Hknown.
  - rewrite (statistics_known _ _ _ Hknown) in Hstat. injection Hstat as <-.
    exists (stdout t1), (table (add_counts orbit_classes (records (scenario args) major small))).
    split; [|split].
    + rewrite stdout_app. unfold summary. cbn [stdout].
      now rewrite total_is_sum_of_table.
    + rewrite table_length. unfold add_counts. now rewrite length_map.
    + unfold table, add_counts. rewrite !map_map. reflexivity.
  - destruct (statistics_unknown _ _ _ Hknown) as [e [He _]].
    rewrite He in Hstat. discriminate Hstat.
Qed.

End Totals.

(** ** The statistics step *)

Section Statistics.
Import PyStr Py QueryData Expected.

Local Open Scope Z_scope.

(** [increment] adds one to the counter of its key and leaves the other
    counters and the keys as they are. *)
Lemma increment_counter (oc oc' : classes) (code : string) :
  increment oc code = Some oc' ->
  counter oc' code = counter oc code + 1
  /\ (forall c, c <> code -> counter oc' c = counter oc c)
  /\ map fst oc' = map fst oc.
Proof.
  revert oc'. induction oc as [|[k [l n]] oc IH]; intros oc' H; cbn [increment] in H.
  - discriminate.
  - destruct (String.eqb k code) eqn:Hk.
    + injection H as <-. cbn [counter map fst]. rewrite Hk.
      repeat split. intros c Hc. apply String.eqb_eq in Hk. subst k.
      destruct (String.eqb_spec code c); [congruence | reflexivity].
    + destruct (increment oc code) as [oc''|]; [|discriminate].
      injection H as <-. destruct (IH oc'' eq_refl) as (H1 & H2 & H3).
      cbn [counter map fst]. rewrite Hk. repeat split.
      * exact H1.
      * intros c Hc. destruct (String.eqb k c); [reflexivity | now apply H2].
      * now rewrite H3.
Qed.

Lemma some_unknown (rows : list row) :
  forallb known_code rows = false <-> exists r, In r rows /\ known_code r = false.
Proof.
  split.
  - intros H. induction rows as [|r rows IH]; [discriminate|].
    cbn [forallb] in H. destruct (known_code r) eqn:Hr.
    + destruct (IH H) as (r' & Hin & Hr'). exists r'. split; [now right | exact Hr'].
    + exists r. split; [now left | exact Hr].
  - intros (r & Hin & Hr). apply not_true_is_false. intros Hall.
    rewrite forallb_forall in Hall. rewrite (Hall r Hin) in Hr. discriminate.
Qed.

(** C6: [orbit_classes] starts with 17 counters, all zero; counting one
    record adds one to the counter of the record's class code and leaves
    the other counters as they are; the statistics step fails exactly when
    some record has no known class code, always with a lookup error, and
    when it does not fail it prints the table in which every counter is
    the number of records of its class. *)
Theorem C6_statistics :
  (List.length orbit_classes = 17%nat
   /\ Forall (fun item => snd (snd item) = 0) orbit_classes)
  /\ (forall (oc oc' : classes) (r : row) (t : list event),
         count_row oc r = (t, inr oc') ->
         exists code,
           nth_error r 10 = Some (VStr code)
           /\ counter oc' code = counter oc code + 1
           /\ (forall c, c <> code -> counter oc' c = counter oc c)
           /\ map fst oc' = map fst oc)
  /\ (forall (s : Scenario) (major small : list row),
         ((exists e, snd (statistics s major small) = inl e)
          <-> (exists r, In r (records s major small) /\ known_code r = false))
         /\ (forall e, snd (statistics s major small) = inl e -> is_LookupError e = true)
         /\ (snd (statistics s major small) = inr tt ->
             fst (statistics s major small)
             = summary (add_counts orbit_classes (records s major small)))).
Proof.
  split; [|split].
  - split; [reflexivity|]. repeat constructor.
  - intros oc oc' r t H. unfold count_row in H.
    destruct (nth_error r 10) as [[|code|?|?]|]; try discriminate H.
    destruct (increment oc code) as [oc''|] eqn:Hinc; [|discriminate H].
    injection H as _ <-. exists code. split; [reflexivity|].
    exact (increment_counter oc oc'' code Hinc).
  - intros s major small.
    destruct (forallb known_code (records s major small)) eqn:Hknown.
    + rewrite (statistics_known s major small Hknown). cbn [fst snd].
      split; [|split].
      * split.
        -- intros [e He]. discriminate He.
        -- intros Hex. apply some_unknown in Hex. congruence.
      * intros e He. discriminate He.
      * reflexivity.
    + destruct (statistics_unknown s major small Hknown) as (e & He & Hlook).
      rewrite He. cbn [fst snd]. split; [|split].
      * split.
        -- intros _. now apply some_unknown.
        -- intros _. now exists e.
      * intros e' He'. injection He' as <-. exact Hlook.
      * intros Habs. discriminate Habs.
Qed.

End Statistics.

(** ** The fields of a written record *)

Section CsvFields.
Import PyStr Csv.

Lemma fields_of_cons (b : bool) (s : string) : exists f fs, fields_of b s = f :: fs.
Proof.
  revert b. induction s as [|c s IH]; intros b; cbn [fields_of]; [eauto|].
  destruct (Ascii.eqb c "," && negb b); [eauto|].
  destruct (IH (if Ascii.eqb c dq then negb b else b)) as (f & fs & ->).
  cbn [prepend]. eauto.
Qed.

Lemma prepend_nil (l : list string) : l <> [] -> prepend "" l = l.
Proof.
  destruct l; [congruence | reflexivity].
Qed.

Lemma prepend_append (s t : string) (l : list string) :
  prepend (s ++ t) l = prepend s (prepend t l).
Proof.
  destruct l; cbn [prepend]; [reflexivity | now rewrite append_assoc].
Qed.

Lemma prepend_fields_nil (b : bool) (s : string) : prepend "" (fields_of b s) = fields_of b s.
Proof.
  destruct (fields_of_cons b s) as (f & fs & ->). reflexivity.
Qed.

(** A text without comma or quote stays in the field it starts in. *)
Lemma fields_of_plain (b : bool) (s r : string) :
  existsb (fun c => Ascii.eqb c "," || Ascii.eqb c dq) s = false ->
  fields_of b (s ++ r) = prepend s (fields_of b r).
Proof.
  induction s as [|c s IH]; cbn [existsb append]; intros H.
  - symmetry. apply prepend_fields_nil.
  - apply orb_false_elim in H as [Hc Hs]. apply orb_false_elim in Hc as [Hcomma Hdq].
    cbn [fields_of]. rewrite Hcomma, Hdq. cbn [andb].
    rewrite (IH Hs). now rewrite <- prepend_append.
Qed.

(** Inside quotes, a text with its quotes doubled stays in the field, and
    the reader is still inside quotes after it. *)
Lemma fields_of_doubled (s r : string) :
  fields_of true (double_quotes s ++ r) = prepend (double_quotes s) (fields_of true r).
Proof.
  induction s as [|c s IH]; cbn [double_quotes append].
  - symmetry. apply prepend_fields_nil.
  - destruct (Ascii.eqb c dq) eqn:Hc.
    + cbn [append fields_of]. change (Ascii.eqb dq ",") with false.
      change (Ascii.eqb dq dq) with true. cbn [andb negb].
      rewrite IH. now rewrite <- !prepend_append.
    + cbn [append fields_of]. rewrite Hc. cbn [negb andb].
      rewrite andb_false_r. rewrite IH. now rewrite <- prepend_append.
Qed.

Lemma special_plain (lt s : string) :
  existsb (special lt) s = false ->
  existsb (fun c => Ascii.eqb c "," || Ascii.eqb c dq) s = false.
Proof.
  induction s as [|c s IH]; cbn [existsb]; [reflexivity|].
  intros H. apply orb_false_elim in H as [Hc Hs]. rewrite (IH Hs).
  unfold special in Hc. apply orb_false_elim in Hc as [Hc _]. now rewrite Hc.
Qed.

(** A written field, quoted or not, is one field for the reader. *)
Lemma fields_of_field (lt s r : string) :
  fields_of false (field lt s ++ r) = prepend (field lt s) (fields_of false r).
Proof.
  unfold field. destruct (existsb (special lt) s) eqn:Hs.
  - cbn [append fields_of]. change (Ascii.eqb dq ",") with false.
    change (Ascii.eqb dq dq) with true. cbn [andb negb].
    rewrite append_assoc, fields_of_doubled. cbn [append fields_of chr].
    change (Ascii.eqb dq ",") with false. change (Ascii.eqb dq dq) with true.
    cbn [andb negb].
    rewrite <- !prepend_append. reflexivity.
  - apply fields_of_plain, (special_plain lt), Hs.
Qed.

Lemma fields_of_field_end (lt s : string) : fields_of false (field lt s) = [field lt s].
Proof.
  rewrite <- (append_nil_r (field lt s)) at 1. rewrite fields_of_field.
  cbn [fields_of prepend]. now rewrite append_nil_r.
Qed.

Lemma join_cons (sep x y : string) (l : list string) :
  join sep (x :: y :: l) = x ++ sep ++ join sep (y :: l).
Proof. reflexivity. Qed.

Lemma fields_of_comma (r : string) :
  fields_of false (String "," r) = "" :: fields_of false r.
Proof. reflexivity. Qed.

(** The reader finds the written fields, and after them the fields of what
    follows the next comma. *)
Lemma fields_of_join (lt : string) (fs : list string) (r : string) :
  fs <> [] ->
  fields_of false (join "," (map (field lt) fs) ++ String "," r)
  = (map (field lt) fs ++ fields_of false r)%list.
Proof.
  induction fs as [|f fs IH]; [congruence|]. intros _.
  destruct fs as [|g fs].
  - change (join "," (map (field lt) [f])) with (field lt f).
    rewrite fields_of_field, fields_of_comma. cbn [prepend map app].
    now rewrite append_nil_r.
  - cbn [map] in *. rewrite join_cons, !append_assoc, fields_of_field.
    change ("," ++ ?x) with (String "," x).
    rewrite fields_of_comma. cbn [prepend].
    rewrite append_nil_r, IH by discriminate. reflexivity.
Qed.

Lemma fields_of_join_end (lt : string) (fs : list string) :
  fs <> [] ->
  fields_of false (join "," (map (field lt) fs)) = map (field lt) fs.
Proof.
  induction fs as [|f fs IH]; [congruence|]. intros _.
  destruct fs as [|g fs].
  - apply fields_of_field_end.
  - cbn [map] in *. rewrite join_cons, fields_of_field.
    change ("," ++ ?x) with (String "," x).
    rewrite fields_of_comma. cbn [prepend].
    rewrite append_nil_r, IH by discriminate. reflexivity.
Qed.

(** A record of two fields or more is its fields between commas. *)
Lemma record_join (lt : string) (f g : string) (fs : list string) :
  record lt (f :: g :: fs) = join "," (map (field lt) (f :: g :: fs)).
Proof. reflexivity. Qed.

(** The empty text is written as it is. *)
Lemma field_empty (lt : string) : field lt "" = "".
Proof. reflexivity. Qed.

Lemma field_not_empty (lt s : string) : s <> "" -> field lt s <> "".
Proof.
  unfold field. destruct (existsb (special lt) s); [discriminate | auto].
Qed.

End CsvFields.

(** ** The rows of the file *)

Section FileRows.
Import PyStr Py QueryData Expected.

Lemma two_or_more {A} (l : list A) :
  (2 <= List.length l)%nat -> exists a b l', l = a :: b :: l'.
Proof.
  destruct l as [|a [|b l']]; cbn [List.length]; try lia. eauto.
Qed.

(** The reader's fields of a major-body line are the written fields. *)
Lemma major_record_fields (E : Env) (r : row) :
  (2 <= List.length r)%nat ->
  Csv.fields_of false (major_record E r) = map (Csv.field (linesep E)) (map (str E) r).
Proof.
  intros H. destruct (two_or_more r H) as (a & b & r' & ->).
  unfold major_record. cbn [map]. rewrite record_join.
  apply fields_of_join_end. discriminate.
Qed.

(** The reader's fields of a small-body line are the written fields and
    two empty fields. *)
Lemma small_record_fields (E : Env) (r : row) :
  (2 <= List.length r)%nat ->
  Csv.fields_of false (small_record E r)
  = (map (Csv.field (",," ++ linesep E)) (map (str E) r) ++ [""; ""])%list.
Proof.
  intros H. destruct (two_or_more r H) as (a & b & r' & ->).
  unfold small_record. cbn [map]. rewrite record_join.
  change ",," with (String "," ",") at 2.
  rewrite fields_of_join by discriminate. reflexivity.
Qed.

Lemma small_line_record (E : Env) (r : row) :
  small_line E r = small_record E r ++ linesep E.
Proof.
  unfold small_line, small_record, Csv.writerow. now rewrite append_assoc.
Qed.

(** C8: in a run of scenario1, scenario2 or full that gets rows of 12 cells
    from the Small-Body Database, the writes are the header line, the lines
    of the major bodies and one line per small-body row; such a line is a
    record, two commas and the line separator, and it reads as 14 fields,
    the 12 written fields and two empty fields. *)
Theorem C8_small_body_rows (E : Env) (dict : list (body_id * Body)) (args : Args)
        (major : list row) (resp : Response) (small : list row) :
  limit_matches_scenario args = true ->
  scenario args <> planets_and_moons ->
  answered E dict major ->
  limit_reaches args (Z.of_nat (List.length dict)) = true ->
  requests_get E (small_body_url args (Z.of_nat (List.length dict))) = Some resp ->
  status_code resp = 200%Z ->
  data resp = Some small ->
  Forall (fun r => List.length r = 12%nat) small ->
  writes (fst (run E dict args))
  = (header_line E :: map (major_line E) major ++ map (small_line E) small)%list
  /\ Forall (fun r =>
               small_line E r
               = Csv.record (",," ++ linesep E) (map (str E) r) ++ ",," ++ linesep E
               /\ small_line E r = small_record E r ++ linesep E
               /\ Csv.fields_of false (small_record E r)
                  = (map (Csv.field (",," ++ linesep E)) (map (str E) r) ++ [""; ""])%list
               /\ List.length (Csv.fields_of false (small_record E r)) = 14%nat
               /\ nth_error (Csv.fields_of false (small_record E r)) 12 = Some ""
               /\ nth_error (Csv.fields_of false (small_record E r)) 13 = Some "")
            small.
Proof.
  intros Hargs Hpm Hmajor Hreach Hget Hstatus Hdata Hcells.
  rewrite (run_small_bodies_rows E dict args major Hargs Hmajor resp small
             Hpm Hreach Hget Hstatus Hdata).
  split.
  - rewrite bind_value. cbn [fst]. unfold small_phase.
    rewrite !writes_app, writes_major_phase, statistics_writes. cbn [writes].
    rewrite writes_app, writes_lines. cbn [writes]. now rewrite !app_nil_r.
  - apply Forall_impl with (2 := Hcells). intros r Hr.
    assert (H2 : (2 <= List.length r)%nat) by lia.
    rewrite (small_record_fields E r H2).
    split; [reflexivity|]. split; [apply small_line_record|].
    split; [reflexivity|].
    rewrite length_app, !length_map, Hr.
    split; [reflexivity|].
    rewrite !nth_error_app2 by (rewrite !length_map; lia).
    rewrite !length_map, Hr. split; reflexivity.
Qed.

Lemma plain_text_field (E : Env) (s : string) :
  plain_text s = true -> Csv.field (linesep E) s = s /\ s <> "".
Proof.
  unfold plain_text. intros H. apply andb_prop in H as [Hne Hplain].
  apply negb_true_iff in Hne, Hplain. apply String.eqb_neq in Hne.
  split; [|exact Hne]. unfold Csv.field.
  replace (existsb (Csv.special (linesep E)) s) with false; [reflexivity|].
  symmetry. revert Hplain. clear Hne.
  induction s as [|c s IH]; cbn [existsb]; [reflexivity|].
  intros H. apply orb_false_elim in H as [Hc Hs]. rewrite (IH Hs), orb_false_r.
  apply orb_false_elim in Hc as [Hc Hlf]. apply orb_false_elim in Hc as [Hc Hcr].
  unfold Csv.special. rewrite Hc. cbn [orb].
  unfold linesep. destruct (platform E); cbn [mem chr]; rewrite ?Hcr, Hlf; reflexivity.
Qed.

(** The names of the central bodies of the dict are plain texts. *)
Lemma central_bodies_plain :
  forallb (fun item => plain_text (central_body (snd item))) major_bodies_dict = true.
Proof. vm_compute. reflexivity. Qed.

(** C9: in a run of planets_and_moons in which Horizons answers every
    query, the writes are the header line and then one line per entry of
    the dict, in the order of the dict; the line of an entry reads as 14
    fields, of which those of the absolute magnitude, the albedo and the
    diameter are empty and those of the mass and of the central body are
    the entry's, neither empty. *)
Theorem C9_major_bodies_only (E : Env) (args : Args) (major : list row) :
  scenario args = planets_and_moons ->
  limit args = None ->
  answered E major_bodies_dict major ->
  (forall f : float, str_float E f <> "") ->
  writes (fst (main E args)) = header_line E :: map (major_line E) major
  /\ file_content (fst (main E args)) = header_line E ++ join "" (map (major_line E) major)
  /\ Forall2 (fun item r =>
                (exists eph, ephemeris_of E item = Some eph
                             /\ r = horizons_row eph (snd item))
                /\ major_line E r = major_record E r ++ linesep E
                /\ List.length (Csv.fields_of false (major_record E r)) = 14%nat
                /\ nth_error (Csv.fields_of false (major_record E r)) 7 = Some ""
                /\ nth_error (Csv.fields_of false (major_record E r)) 8 = Some ""
                /\ nth_error (Csv.fields_of false (major_record E r)) 9 = Some ""
                /\ nth_error (Csv.fields_of false (major_record E r)) 12
                   = Some (Csv.field (linesep E) (str_float E (mass (snd item))))
                /\ Csv.field (linesep E) (str_float E (mass (snd item))) <> ""
                /\ nth_error (Csv.fields_of false (major_record E r)) 13
                   = Some (central_body (snd item))
                /\ central_body (snd item) <> "")
             major_bodies_dict major.
Proof.
  intros Hs Hl Hmajor Hstr.
  assert (Hargs : limit_matches_scenario args = true).
  { unfold limit_matches_scenario. now rewrite Hs, Hl. }
  unfold main. rewrite (run_planets_and_moons E _ args major Hargs Hmajor Hs).
  rewrite bind_value. cbn [fst].
  assert (Hw : writes (major_phase E major_bodies_dict args major
                         ++ fst (statistics planets_and_moons major []))
               = header_line E :: map (major_line E) major).
  { rewrite writes_app, writes_major_phase, statistics_writes. now rewrite app_nil_r. }
  split; [exact Hw|]. split.
  { rewrite file_content_writes, Hw. cbn [join].
    destruct (map (major_line E) major); [|reflexivity].
    cbn [join]. now rewrite append_nil_r. }
  pose proof (proj1 (forallb_forall _ _) central_bodies_plain) as Hplain.
  clear Hw. revert Hplain. revert Hmajor. generalize major_bodies_dict as dict.
  intros dict Hmajor.
  unfold answered in Hmajor.
  induction Hmajor as [|item r dict rows Hr _ IH]; intros Hplain; constructor.
  - unfold row_of in Hr.
    destruct (ephemeris_of E item) as [eph|] eqn:Heph; [|discriminate Hr].
    injection Hr as <-.
    destruct (plain_text_field E (central_body (snd item))) as [Hfield Hne].
    { apply (Hplain item). now left. }
    split; [exists eph; split; reflexivity|].
    split; [reflexivity|].
    rewrite major_record_fields by (cbn; lia).
    cbn [horizons_row map str nth_error List.length]. rewrite Hfield.
    repeat split; try reflexivity; try exact Hne.
    apply field_not_empty, Hstr.
  - apply IH. intros x Hx. apply Hplain. now right.
Qed.

End FileRows.

(** ** planets_and_moons on the built-in dict *)

Section BuiltIn.
Import PyStr Py QueryData Expected.

Lemma id_eqb_eq (a b : body_id) : id_eqb a b = true <-> a = b.
Proof.
  destruct a as [n|s], b as [m|t]; cbn [id_eqb]; try (split; discriminate).
  - rewrite Z.eqb_eq. split; congruence.
  - rewrite String.eqb_eq. split; congruence.
Qed.

(** With distinct keys, the loop over the keys that reads [dict[body]]
    goes over the items of the dict. *)
Lemma getitem_item (dict : list (body_id * Body)) (item : body_id * Body) :
  distinct_keys (map fst dict) = true ->
  In item dict ->
  getitem dict (fst item) = Some (snd item).
Proof.
  induction dict as [|[k b] dict IH]; cbn [map fst distinct_keys getitem In]; [tauto|].
  intros Hd Hin. apply andb_prop in Hd as [Hk Hd]. destruct Hin as [<-|Hin].
  - cbn [fst snd]. now rewrite (proj2 (id_eqb_eq k k) eq_refl).
  - destruct (id_eqb k (fst item)) eqn:Heq; [|now apply IH].
    apply negb_true_iff in Hk. apply id_eqb_eq in Heq. subst k.
    assert (Hex : List.existsb (id_eqb (fst item)) (map fst dict) = true).
    { apply List.existsb_exists. exists (fst item). split.
      - now apply in_map.
      - now apply id_eqb_eq. }
    congruence.
Qed.

Lemma major_bodies_keys_distinct : distinct_keys (map fst major_bodies_dict) = true.
Proof. vm_compute. reflexivity. Qed.

Lemma stdout_queries (dict : list (body_id * Body)) : stdout (map query_of dict) = [].
Proof.
  induction dict as [|x dict IH]; [reflexivity | exact IH].
Qed.

Lemma stdout_lines {A} (f : A -> string) (l : list A) :
  stdout (map (fun x => Write (f x)) l) = [].
Proof.
  induction l as [|x l IH]; [reflexivity | exact IH].
Qed.

Lemma stdout_major_phase E dict args rows :
  stdout (major_phase E dict args rows)
  = [generating args; Timing "NASA Horizons Database"].
Proof.
  unfold major_phase. cbn [app stdout].
  now rewrite !stdout_app, stdout_queries, stdout_lines.
Qed.

(** The class codes of the rows are those of the dict. *)
Lemma answered_codes (E : Env) dict major :
  answered E dict major ->
  Forall2 (fun item r => nth_error r 10 = Some (VStr (orbit_class (snd item)))) dict major.
Proof.
  induction 1 as [|item r dict rows Hr _ IH]; constructor; [|exact IH].
  unfold row_of in Hr. destruct (ephemeris_of E item); [|discriminate Hr].
  now injection Hr as <-.
Qed.

Lemma answered_known (E : Env) dict major :
  answered E dict major ->
  forallb known_code major
  = forallb (fun item => mem_list (orbit_class (snd item)) (map fst orbit_classes)) dict.
Proof.
  intros H. apply answered_codes in H.
  induction H as [|item r dict rows Hr _ IH]; [reflexivity|].
  cbn [forallb]. rewrite IH. unfold known_code at 1. now rewrite Hr.
Qed.

Lemma answered_occurrences (E : Env) dict major (code : string) :
  answered E dict major ->
  occurrences code major = bodies_of_class code dict.
Proof.
  intros H. apply answered_codes in H.
  induction H as [|item r dict rows Hr _ IH]; [reflexivity|].
  cbn [occurrences bodies_of_class]. now rewrite Hr, IH.
Qed.

Lemma answered_counts (E : Env) dict major :
  answered E dict major ->
  add_counts orbit_classes major = class_counts dict.
Proof.
  intros H. unfold add_counts, class_counts. apply map_ext.
  intros item. now rewrite (answered_occurrences E dict major _ H).
Qed.

Lemma answered_classes (E : Env) dict major :
  answered E dict major ->
  (forall item, In item dict ->
                orbit_class (snd item) = "PLA"
                \/ orbit_class (snd item) = "DWA"
                \/ orbit_class (snd item) = "SAT") ->
  Forall (fun r => nth_error r 10 = Some (VStr "PLA")
                   \/ nth_error r 10 = Some (VStr "DWA")
                   \/ nth_error r 10 = Some (VStr "SAT")) major.
Proof.
  intros H. apply answered_codes in H.
  induction H as [|item r dict rows Hr _ IH]; intros Hclasses; constructor.
  - rewrite Hr. destruct (Hclasses item (or_introl eq_refl)) as [ -> | [ -> | -> ] ]; auto.
  - apply IH. intros x Hx. apply Hclasses. now right.
Qed.

(** C3, as the code has it: the built-in dict has 177 bodies, 8 planets, 10
    dwarf planets and 159 moons; a run of planets_and_moons in which
    Horizons answers every query ends well, writes the header line and
    177 lines, each of class PLA, DWA or SAT, and its last print is
    [Total number of bodies is 177 + 1 (Sun) = 178.] *)
Theorem C3_planets_and_moons (E : Env) (args : Args) (major : list row) :
  scenario args = planets_and_moons ->
  limit args = None ->
  answered E major_bodies_dict major ->
  (List.length major_bodies_dict = 177%nat
   /\ bodies_of_class "PLA" major_bodies_dict = 8%Z
   /\ bodies_of_class "DWA" major_bodies_dict = 10%Z
   /\ bodies_of_class "SAT" major_bodies_dict = 159%Z)
  /\ snd (main E args) = inr tt
  /\ writes (fst (main E args)) = header_line E :: map (major_line E) major
  /\ List.length major = 177%nat
  /\ Forall (fun r => nth_error r 10 = Some (VStr "PLA")
                      \/ nth_error r 10 = Some (VStr "DWA")
                      \/ nth_error r 10 = Some (VStr "SAT")) major
  /\ stdout (fst (main E args))
     = [ generating args;
         Timing "NASA Horizons Database";
         Line "";
         Table (table (class_counts major_bodies_dict));
         Line "";
         Line "Total number of bodies is 177 + 1 (Sun) = 178." ]
  /\ map snd (table (class_counts major_bodies_dict))
     = [8; 10; 159; 0; 0; 0; 0; 0; 0; 0; 0; 0; 0; 0; 0; 0; 0]%Z.
Proof.
  intros Hs Hl Hmajor.
  assert (Hargs : limit_matches_scenario args = true).
  { unfold limit_matches_scenario. now rewrite Hs, Hl. }
  split; [repeat split; vm_compute; reflexivity|].
  unfold main. rewrite (run_planets_and_moons E _ args major Hargs Hmajor Hs).
  assert (Hknown : forallb known_code (records planets_and_moons major []) = true).
  { unfold records. cbn [scenario_eqb]. rewrite app_nil_r.
    rewrite (answered_known E _ major Hmajor). vm_compute. reflexivity. }
  rewrite (statistics_known _ _ _ Hknown), bind_value. cbn [fst snd].
  unfold records. cbn [scenario_eqb]. rewrite app_nil_r.
  rewrite (answered_counts E _ major Hmajor).
  split; [reflexivity|].
  split.
  { rewrite writes_app, writes_major_phase. cbn [writes summary]. now rewrite app_nil_r. }
  split; [exact (answered_length E _ major Hmajor)|].
  split.
  { apply (answered_classes E major_bodies_dict major Hmajor).
    apply Forall_forall. vm_compute.
    repeat (constructor; [auto|]). constructor. }
  split; [|vm_compute; reflexivity].
  rewrite stdout_app, stdout_major_phase. unfold summary. cbn [stdout app].
  do 5 f_equal; vm_compute; reflexivity.
Qed.

End BuiltIn.

(** ** Sample runs *)

Section SampleRuns.
Import PyStr Py QueryData Expected.

Lemma sample_answered (status : Z) (rows : list row) (dict : list (body_id * Body)) :
  answered (Sample.env status rows) dict (Sample.rows_of dict).
Proof.
  induction dict as [|item dict IH]; constructor; [reflexivity | exact IH].
Qed.

Lemma sample_str_float_not_empty (f : float) : Sample.str_float f <> "".
Proof.
  unfold Sample.str_float.
  destruct (Prim2SF f) as [[]|[]| |s m e]; try discriminate.
  intros H. apply append_eq_nil in H as [_ H].
  apply append_eq_nil in H as [_ H]. discriminate H.
Qed.

(** C2 fails as stated: with scenario2 and limit 5 on the built-in dict,
    the [ValueError] of the minimum 178 comes after 177 requests to
    Horizons. *)
Lemma C2_limit_checked_after_queries :
  snd (main (Sample.env 200 Sample.asteroids) (Sample.args_of scenario2 (Some 5%Z)))
  = inl (ValueError
           ("-l/--limit (5) must be at least as large as the number of planets and moons + 1 (" ++
            "accounting for the Sun) which is 178!"))
  /\ List.length
       (network (fst (main (Sample.env 200 Sample.asteroids)
                           (Sample.args_of scenario2 (Some 5%Z))))) = 177%nat
  /\ network (fst (main (Sample.env 200 Sample.asteroids)
                        (Sample.args_of scenario2 (Some 5%Z)))) <> [].
Proof.
  split; [vm_compute; reflexivity|].
  split; [vm_compute; reflexivity|].
  vm_compute. discriminate.
Qed.

(** Two runs to which the amended C2 applies: a limit with the scenario
    full, and a limit of 2 with scenario2 over two bodies. *)
Lemma C2_validation_errors_witness :
  run (Sample.env 200 Sample.asteroids) Sample.two_bodies
      (Sample.args_of full (Some 5%Z))
  = ([], inl (ValueError "-l/--limit may only be used with -s/--scenario scenario2"))
  /\ (run (Sample.env 200 Sample.asteroids) Sample.two_bodies
           (Sample.args_of scenario2 (Some 2%Z))
       = (major_phase (Sample.env 200 Sample.asteroids) Sample.two_bodies
                      (Sample.args_of scenario2 (Some 2%Z))
                      (Sample.rows_of Sample.two_bodies),
          inl (ValueError (limit_message 2 2)))
         /\ network (fst (run (Sample.env 200 Sample.asteroids) Sample.two_bodies
                              (Sample.args_of scenario2 (Some 2%Z))))
            = map query_of Sample.two_bodies
         /\ writes (fst (run (Sample.env 200 Sample.asteroids) Sample.two_bodies
                             (Sample.args_of scenario2 (Some 2%Z))))
            = header_line (Sample.env 200 Sample.asteroids)
              :: map (major_line (Sample.env 200 Sample.asteroids))
                     (Sample.rows_of Sample.two_bodies)).
Proof.
  split.
  - apply (proj1 (C2_validation_errors (Sample.env 200 Sample.asteroids) Sample.two_bodies
                                       (Sample.args_of full (Some 5%Z)))).
    reflexivity.
  - apply (proj2 (C2_validation_errors (Sample.env 200 Sample.asteroids) Sample.two_bodies
                                       (Sample.args_of scenario2 (Some 2%Z)))
                 (Sample.rows_of Sample.two_bodies) 2%Z).
    + reflexivity.
    + reflexivity.
    + apply sample_answered.
    + reflexivity.
Defined.

(** C3 fails as stated: a run of planets_and_moons on the built-in dict
    writes 177 lines after the header, not 171, and prints the total 178,
    not 172. *)
Lemma C3_rows_are_177 :
  List.length
    (tl (writes (fst (main (Sample.env 200 []) (Sample.args_of planets_and_moons None)))))
  = 177%nat
  /\ List.length
       (tl (writes (fst (main (Sample.env 200 []) (Sample.args_of planets_and_moons None)))))
     <> 171%nat
  /\ last (stdout (fst (main (Sample.env 200 []) (Sample.args_of planets_and_moons None))))
          (Line "")
     = Line "Total number of bodies is 177 + 1 (Sun) = 178."
  /\ ~ In (Line "Total number of bodies is 171 + 1 (Sun) = 172.")
          (stdout (fst (main (Sample.env 200 []) (Sample.args_of planets_and_moons None)))).
Proof.
  split; [vm_compute; reflexivity|].
  split; [vm_compute; discriminate|].
  split; [vm_compute; reflexivity|].
  vm_compute. intros H.
  repeat (destruct H as [H|H]; [discriminate H|]). exact H.
Qed.

(** A run of planets_and_moons on the built-in dict in which every query
    is answered. *)
Lemma C3_planets_and_moons_witness :
  snd (main (Sample.env 200 []) (Sample.args_of planets_and_moons None)) = inr tt
  /\ List.length (Sample.rows_of major_bodies_dict) = 177%nat
  /\ stdout (fst (main (Sample.env 200 []) (Sample.args_of planets_and_moons None)))
     = [ generating (Sample.args_of planets_and_moons None);
         Timing "NASA Horizons Database";
         Line "";
         Table (table (class_counts major_bodies_dict));
         Line "";
         Line "Total number of bodies is 177 + 1 (Sun) = 178." ].
Proof.
  pose proof (C3_planets_and_moons (Sample.env 200 [])
                (Sample.args_of planets_and_moons None)
                (Sample.rows_of major_bodies_dict)
                eq_refl eq_refl (sample_answered 200 [] major_bodies_dict))
    as (_ & Hend & _ & Hlen & _ & Hout & _).
  exact (conj Hend (conj Hlen Hout)).
Defined.

(** scenario2 over two bodies: the limit 2 is below the minimum 3, the
    limit 5 gives the cap 2. *)
Lemma C4_limit_cap_witness :
  run (Sample.env 200 Sample.asteroids) Sample.two_bodies
      (Sample.args_of scenario2 (Some 2%Z))
  = (major_phase (Sample.env 200 Sample.asteroids) Sample.two_bodies
                 (Sample.args_of scenario2 (Some 2%Z)) (Sample.rows_of Sample.two_bodies),
     inl (ValueError
            ("-l/--limit (2) must be at least as large as the number of planets and moons + 1 (" ++
             "accounting for the Sun) which is 3!")))
  /\ network (fst (run (Sample.env 200 Sample.asteroids) Sample.two_bodies
                       (Sample.args_of scenario2 (Some 5%Z))))
     = [ HorizonsQuery (IdInt 399) "@sun";
         HorizonsQuery (IdInt 301) "Geocentric";
         HttpGet (url ++ "?" ++ fields ++ "&limit=2&sb-kind=a") ].
Proof.
  split.
  - apply (proj1 (C4_limit_cap (Sample.env 200 Sample.asteroids) Sample.two_bodies
                               (Sample.args_of scenario2 (Some 2%Z))
                               (Sample.rows_of Sample.two_bodies) 2%Z
                               eq_refl eq_refl
                               (sample_answered 200 Sample.asteroids Sample.two_bodies))).
    reflexivity.
  - apply (proj2 (C4_limit_cap (Sample.env 200 Sample.asteroids) Sample.two_bodies
                               (Sample.args_of scenario2 (Some 5%Z))
                               (Sample.rows_of Sample.two_bodies) 5%Z
                               eq_refl eq_refl
                               (sample_answered 200 Sample.asteroids Sample.two_bodies))).
    discriminate.
Defined.

(** Counting a main-belt row, a record of an unknown class, and the
    statistics of four records of known classes. *)
Lemma C6_statistics_witness :
  (exists code,
      nth_error (hd [] Sample.asteroids) 10 = Some (VStr code)
      /\ counter (map (bump "MBA") orbit_classes) code = (counter orbit_classes code + 1)%Z
      /\ (forall c, c <> code ->
                    counter (map (bump "MBA") orbit_classes) c = counter orbit_classes c)
      /\ map fst (map (bump "MBA") orbit_classes) = map fst orbit_classes)
  /\ (exists e,
         snd (statistics full (Sample.rows_of Sample.two_bodies) [[VStr "XXX"]]) = inl e)
  /\ fst (statistics full (Sample.rows_of Sample.two_bodies) Sample.asteroids)
     = summary (add_counts orbit_classes
                           (records full (Sample.rows_of Sample.two_bodies) Sample.asteroids)).
Proof.
  destruct C6_statistics as (_ & Hstep & Hstat).
  split; [|split].
  - apply (Hstep orbit_classes (map (bump "MBA") orbit_classes) (hd [] Sample.asteroids) []).
    reflexivity.
  - apply (proj1 (Hstat full (Sample.rows_of Sample.two_bodies) [[VStr "XXX"]])).
    exists [VStr "XXX"]. split; [|reflexivity].
    right. right. left. reflexivity.
  - apply (proj2 (proj2 (Hstat full (Sample.rows_of Sample.two_bodies) Sample.asteroids))).
    reflexivity.
Defined.

(** A run of the scenario full that ends well. *)
Lemma C7_printed_totals_witness :
  exists (before : list console) (tbl : list (string * Z)),
    stdout (fst (run (Sample.env 200 Sample.asteroids) Sample.two_bodies
                     (Sample.args_of full None)))
    = (before ++
       [Line ""; Table tbl; Line "";
        Line ("Total number of bodies is " ++ str_of_Z (sum_counts tbl) ++
              " + 1 (Sun) = " ++ str_of_Z (sum_counts tbl + 1) ++ ".")])%list
    /\ List.length tbl = 17%nat
    /\ map fst tbl = map fst (table orbit_classes).
Proof.
  apply (C7_printed_totals (Sample.env 200 Sample.asteroids) Sample.two_bodies
                           (Sample.args_of full None)).
  vm_compute. reflexivity.
Defined.

(** A run of the scenario full with two small-body rows of 12 cells. *)
Lemma C8_small_body_rows_witness :
  writes (fst (run (Sample.env 200 Sample.asteroids) Sample.two_bodies
                   (Sample.args_of full None)))
  = (header_line (Sample.env 200 Sample.asteroids)
       :: map (major_line (Sample.env 200 Sample.asteroids)) (Sample.rows_of Sample.two_bodies)
       ++ map (small_line (Sample.env 200 Sample.asteroids)) Sample.asteroids)%list
  /\ Forall (fun r =>
               List.length
                 (Csv.fields_of false (small_record (Sample.env 200 Sample.asteroids) r))
               = 14%nat)
            Sample.asteroids.
Proof.
  destruct (C8_small_body_rows (Sample.env 200 Sample.asteroids) Sample.two_bodies
                               (Sample.args_of full None)
                               (Sample.rows_of Sample.two_bodies)
                               (mkResponse 200 (Data Sample.asteroids))
                               Sample.asteroids)
    as [Hwrites Hrows].
  - reflexivity.
  - discriminate.
  - apply sample_answered.
  - reflexivity.
  - reflexivity.
  - reflexivity.
  - reflexivity.
  - repeat constructor.
  - split; [exact Hwrites|].
    apply Forall_impl with (2 := Hrows). intros r H. apply H.
Defined.

(** A run of planets_and_moons on the built-in dict. *)
Lemma C9_major_bodies_only_witness :
  writes (fst (main (Sample.env 200 []) (Sample.args_of planets_and_moons None)))
  = header_line (Sample.env 200 [])
    :: map (major_line (Sample.env 200 [])) (Sample.rows_of major_bodies_dict)
  /\ List.length (Sample.rows_of major_bodies_dict) = List.length major_bodies_dict.
Proof.
  destruct (C9_major_bodies_only (Sample.env 200 [])
                                 (Sample.args_of planets_and_moons None)
                                 (Sample.rows_of major_bodies_dict)
                                 eq_refl eq_refl
                                 (sample_answered 200 [] major_bodies_dict)
                                 sample_str_float_not_empty)
    as (Hwrites & _ & Hrows).
  split; [exact Hwrites|].
  symmetry. exact (Forall2_length Hrows).
Defined.

End SampleRuns.

(* ===================================================================== *)
(** * Further properties of the run *)
(* ===================================================================== *)

(** ** How a run can end *)

Section Outcomes.
Import PyStr Py QueryData Expected Reading.

(** Horizons answers every query of the dict, or there is a first entry
    whose query it does not answer. *)
Lemma horizons_outcome (E : Env) (dict : list (body_id * Body)) :
  (exists rows, answered E dict rows)
  \/ (exists before item after rows,
         dict = (before ++ item :: after)%list
         /\ answered E before rows
         /\ ephemeris_of E item = None).
Proof.
  induction dict as [|item dict IH].
  - left. exists []. constructor.
  - destruct (ephemeris_of E item) as [eph|] eqn:Heph.
    + destruct IH as [[rows Hrows] | (before & item' & after & rows & -> & Hrows & Hnone)].
      * left. exists (horizons_row eph (snd item) :: rows).
        constructor; [|exact Hrows]. unfold row_of. now rewrite Heph.
      * right. exists (item :: before), item', after, (horizons_row eph (snd item) :: rows).
        split; [reflexivity|]. split; [|exact Hnone].
        constructor; [|exact Hrows]. unfold row_of. now rewrite Heph.
    + right. exists [], item, dict, []. split; [reflexivity|]. split; [constructor | exact Heph].
Qed.

Lemma elements_unanswered (E : Env) (body : body_id) (location : string) :
  horizons E body location = None ->
  elements E body location = ([HorizonsQuery body location], inl (HorizonsError body)).
Proof.
  intros H. unfold elements. rewrite H. unfold emit, raise.
  rewrite bind_value. reflexivity.
Qed.

Lemma query_horizons_unanswered (E : Env) before item after rows :
  answered E before rows ->
  ephemeris_of E item = None ->
  query_horizons E (before ++ item :: after)
  = ((map query_of before ++ [query_of item])%list, inl (HorizonsError (fst item))).
Proof.
  intros Hrows Hnone. unfold query_horizons.
  rewrite for_in_app, (query_horizons_from E before rows [] Hrows), bind_value.
  cbv beta. cbn [for_in app]. unfold ephemeris_of in Hnone.
  rewrite (elements_unanswered E _ _ Hnone), !bind_exn. reflexivity.
Qed.

Lemma run_unanswered (E : Env) args before item after rows :
  limit_matches_scenario args = true ->
  answered E before rows ->
  ephemeris_of E item = None ->
  run E (before ++ item :: after) args
  = ((opening E args ++ map query_of before ++ [query_of item])%list,
     inl (HorizonsError (fst item))).
Proof.
  intros Hargs Hrows Hnone. unfold run.
  rewrite (sanity_check_passes _ Hargs), (query_horizons_unanswered E _ _ after _ Hrows Hnone).
  unfold print, writerow, write, emit.
  do 4 (rewrite bind_value; cbv beta; cbn [fst snd]).
  rewrite bind_exn. reflexivity.
Qed.

Lemma header_line_text (E : Env) :
  header_line E
  = "e,a,i,om,w,ma,epoch,H,albedo,diameter,class,name,mass,central_body" ++ linesep E.
Proof.
  unfold header_line, linesep. destruct (platform E); reflexivity.
Qed.

Lemma limit_not_reached (args : Args) (n : Z) :
  limit_reaches args n = false -> exists l, limit args = Some l /\ (l < n + 1)%Z.
Proof.
  unfold limit_reaches. destruct (limit args) as [l|]; [|discriminate].
  intros H. exists l. split; [reflexivity|].
  apply negb_false_iff, Z.ltb_lt in H. exact H.
Qed.

(** An unanswered Horizons query ends the run at once: the queries stop
    with that entry, the exception is the one of the query, and the file
    holds the header line and no row, even though earlier entries were
    answered. *)
Theorem unanswered_query_ends_run (E : Env) (args : Args)
        (before : list (body_id * Body)) (item : body_id * Body)
        (after : list (body_id * Body)) (rows : list row) :
  limit_matches_scenario args = true ->
  answered E before rows ->
  ephemeris_of E item = None ->
  snd (run E (before ++ item :: after) args) = inl (HorizonsError (fst item))
  /\ network (fst (run E (before ++ item :: after) args))
     = (map query_of before ++ [query_of item])%list
  /\ writes (fst (run E (before ++ item :: after) args)) = [header_line E]
  /\ stdout (fst (run E (before ++ item :: after) args)) = [generating args].
Proof.
  intros Hargs Hrows Hnone.
  rewrite (run_unanswered E args before item after rows Hargs Hrows Hnone).
  cbn [fst snd]. split; [reflexivity|].
  unfold opening. cbn [app network List.filter is_network writes stdout].
  change (List.filter is_network) with network.
  rewrite network_app, network_queries, writes_app, writes_queries.
  rewrite stdout_app, stdout_queries.
  repeat split; reflexivity.
Qed.

Lemma firstn_queries (before : list (body_id * Body)) item after :
  (map query_of before ++ [query_of item])%list
  = firstn (S (List.length before)) (map query_of (before ++ item :: after)).
Proof.
  induction before as [|x before IH]; [reflexivity|].
  cbn [map app List.length]. rewrite firstn_cons. f_equal. exact IH.
Qed.

(** The requests of any run, in order: queries to Horizons for the first
    entries of the dict, one per entry; a request to the Small-Body
    Database only after the queries of all entries, only in a scenario
    other than planets_and_moons, and at most once.  When that request
    carries a limit, the scenario is scenario2 and the limit is not
    negative. *)
Theorem requests_of_a_run (E : Env) (dict : list (body_id * Body)) (args : Args) :
  (exists k, network (fst (run E dict args)) = firstn k (map query_of dict))
  \/ (scenario args <> planets_and_moons
      /\ network (fst (run E dict args))
         = (map query_of dict
              ++ [HttpGet (request_url (scenario args)
                                       (adjusted_limit args (Z.of_nat (List.length dict))))])%list
      /\ match adjusted_limit args (Z.of_nat (List.length dict)) with
         | Some cap => scenario args = scenario2 /\ (0 <= cap)%Z
         | None => scenario args <> scenario2
         end).
Proof.
  destruct (limit_matches_scenario args) eqn:Hargs.
  2:{ left. exists 0%nat. unfold run.
      now rewrite (sanity_check_fails _ Hargs), bind_exn. }
  destruct (horizons_outcome E dict)
    as [[major Hmajor] | (before & item & after & rows & -> & Hrows & Hnone)].
  2:{ left. exists (S (List.length before)).
      rewrite (run_unanswered E args before item after rows Hargs Hrows Hnone).
      cbn [fst]. unfold opening. cbn [app network List.filter is_network].
      change (List.filter is_network) with network.
      rewrite network_app, network_queries. cbn [network List.filter is_network].
      apply firstn_queries. }
  destruct (limit_reaches args (Z.of_nat (List.length dict))) eqn:Hreach.
  2:{ left. exists (List.length (map query_of dict)).
      destruct (limit_not_reached _ _ Hreach) as (l & Hl & Hlow).
      rewrite (run_limit_below E dict args major Hargs Hmajor l Hl Hlow).
      cbn [fst]. now rewrite network_major_phase, firstn_all. }
  destruct (scenario_eqb (scenario args) planets_and_moons) eqn:Hpm.
  - left. exists (List.length (map query_of dict)).
    assert (Hs : scenario args = planets_and_moons)
      by (destruct (scenario args); try discriminate Hpm; reflexivity).
    rewrite (run_planets_and_moons E dict args major Hargs Hmajor Hs).
    rewrite network_bind. cbn [fst snd].
    now rewrite network_major_phase, statistics_network, app_nil_r, firstn_all.
  - right.
    assert (Hs : scenario args <> planets_and_moons)
      by (intros Hs; rewrite Hs in Hpm; discriminate Hpm).
    split; [exact Hs|]. split.
    + rewrite (run_reaches_small_bodies E dict args major Hargs Hmajor Hs Hreach).
      rewrite network_bind. cbn [fst snd].
      rewrite network_major_phase, network_bind, small_bodies_network.
      destruct (snd (small_bodies E (scenario args)
                                  (adjusted_limit args (Z.of_nat (List.length dict)))))
        as [e|a].
      * now rewrite app_nil_r.
      * now rewrite statistics_network, app_nil_r.
    + revert Hargs Hreach. unfold limit_matches_scenario, limit_reaches, adjusted_limit.
      destruct (limit args) as [l|]; cbn [is_some].
      * intros Hargs Hreach. split.
        -- destruct (scenario args); try discriminate Hargs; reflexivity.
        -- apply negb_true_iff, Z.ltb_ge in Hreach. lia.
      * intros Hargs _ Hs2. rewrite Hs2 in Hargs. discriminate Hargs.
Qed.

End Outcomes.

(** ** The answer of the Small-Body Database *)

Section Answers.
Import PyStr Py QueryData Expected Reading.

Lemma small_bodies_accepted (E : Env) (s : Scenario) (l : option Z) (rows : list row) :
  accepted E (request_url s l) = Some rows ->
  small_bodies E s l =
    ((HttpGet (request_url s l) :: map (fun r => Write (small_line E r)) rows
        ++ [Print (Timing "NASA JPL Small Body Database")])%list,
     inr rows).
Proof.
  unfold accepted. intros H.
  destruct (requests_get E (request_url s l)) as [resp|] eqn:Hget; [|discriminate H].
  destruct (status_code resp =? 200)%Z eqn:Hstatus; [|discriminate H].
  apply Z.eqb_eq in Hstatus.
  exact (small_bodies_rows E s l resp rows Hget Hstatus H).
Qed.

(** An answer that is not accepted ends the small-body phase with the
    request as its only event. *)
Lemma small_bodies_rejected (E : Env) (s : Scenario) (l : option Z) :
  accepted E (request_url s l) = None ->
  exists e,
    small_bodies E s l = ([HttpGet (request_url s l)], inl e)
    /\ rejected_with E (request_url s l) e.
Proof.
  unfold accepted, rejected_with, small_bodies, data. intros H.
  destruct (requests_get E (request_url s l)) as [resp|].
  - destruct (status_code resp =? 200)%Z eqn:Hstatus.
    + destruct (text resp) as [| | |rows]; [| | |discriminate H].
      * exists JSONDecodeError. split; reflexivity.
      * exists TypeError. split; reflexivity.
      * exists (KeyError (VStr "data")). split; reflexivity.
    + exists (RuntimeError (status_message (status_code resp))). split; reflexivity.
  - exists ConnectionError. split; reflexivity.
Qed.

(** The rows are written only when the whole answer is accepted.  If the
    request raises, the status is not 200, the text is not JSON, or it is
    JSON without a [data] member, the run ends right after the request
    with the exception of that step ([ConnectionError]; [RuntimeError]
    with the status; [JSONDecodeError], a [ValueError]; [TypeError] or
    [KeyError] of [data], a [LookupError]); the file holds the header line
    and the lines of the major bodies and nothing else, and only the two
    first prints were made. *)
Theorem rejected_answer_writes_no_row (E : Env) (dict : list (body_id * Body))
        (args : Args) (major : list row) :
  limit_matches_scenario args = true ->
  scenario args <> planets_and_moons ->
  answered E dict major ->
  limit_reaches args (Z.of_nat (List.length dict)) = true ->
  accepted E (small_body_url args (Z.of_nat (List.length dict))) = None ->
  exists e,
    run E dict args
    = ((major_phase E dict args major
          ++ [HttpGet (small_body_url args (Z.of_nat (List.length dict)))])%list,
       inl e)
    /\ rejected_with E (small_body_url args (Z.of_nat (List.length dict))) e
    /\ writes (fst (run E dict args)) = header_line E :: map (major_line E) major
    /\ stdout (fst (run E dict args)) = [generating args; Timing "NASA Horizons Database"].
Proof.
  intros Hargs Hpm Hmajor Hreach Hrej.
  destruct (small_bodies_rejected E _ _ Hrej) as (e & Hsb & Hwith).
  exists e.
  rewrite (run_reaches_small_bodies E dict args major Hargs Hmajor Hpm Hreach).
  rewrite Hsb, bind_exn, bind_value. cbn [fst snd].
  split; [reflexivity|]. split; [exact Hwith|].
  rewrite writes_app, writes_major_phase, stdout_app, stdout_major_phase.
  cbn [writes stdout]. now rewrite !app_nil_r.
Qed.

Lemma rejected_answer_cases (E : Env) (dict : list (body_id * Body))
      (args : Args) (major : list row) :
  limit_matches_scenario args = true ->
  scenario args <> planets_and_moons ->
  answered E dict major ->
  limit_reaches args (Z.of_nat (List.length dict)) = true ->
  accepted E (small_body_url args (Z.of_nat (List.length dict))) = None ->
  exists e,
    run E dict args
    = ((major_phase E dict args major
          ++ [HttpGet (small_body_url args (Z.of_nat (List.length dict)))])%list,
       inl e).
Proof.
  intros Hargs Hpm Hmajor Hreach Hrej.
  destruct (small_bodies_rejected E _ _ Hrej) as (e & Hsb & _).
  exists e.
  rewrite (run_reaches_small_bodies E dict args major Hargs Hmajor Hpm Hreach).
  now rewrite Hsb, bind_exn, bind_value.
Qed.

Lemma records_small (s : Scenario) (major small : list row) :
  s <> planets_and_moons -> records s major small = (major ++ small)%list.
Proof.
  unfold records. destruct s; [congruence | reflexivity..].
Qed.

Lemma writes_small_phase E dict args major small :
  writes (small_phase E dict args major small)
  = (header_line E :: map (major_line E) major ++ map (small_line E) small)%list.
Proof.
  unfold small_phase. rewrite writes_app, writes_major_phase. cbn [writes].
  rewrite writes_app, writes_lines. cbn [writes]. now rewrite app_nil_r.
Qed.

Lemma stdout_small_phase E dict args major small :
  stdout (small_phase E dict args major small)
  = [generating args; Timing "NASA Horizons Database";
     Timing "NASA JPL Small Body Database"].
Proof.
  unfold small_phase. rewrite stdout_app, stdout_major_phase. cbn [stdout].
  now rewrite stdout_app, stdout_lines.
Qed.

Lemma run_accepted (E : Env) (dict : list (body_id * Body)) (args : Args)
      (major small : list row) :
  limit_matches_scenario args = true ->
  scenario args <> planets_and_moons ->
  answered E dict major ->
  limit_reaches args (Z.of_nat (List.length dict)) = true ->
  accepted E (small_body_url args (Z.of_nat (List.length dict))) = Some small ->
  run E dict args =
    bind (small_phase E dict args major small, inr tt)
         (fun _ => statistics (scenario args) major small).
Proof.
  intros Hargs Hpm Hmajor Hreach Hacc.
  rewrite (run_reaches_small_bodies E dict args major Hargs Hmajor Hpm Hreach).
  rewrite (small_bodies_accepted E _ _ small Hacc).
  rewrite !bind_value. cbv beta. cbn [fst snd].
  unfold small_phase, small_body_url. rewrite <- !app_assoc. reflexivity.
Qed.

(** A class code that [orbit_classes] does not have is found only after
    every row is in the file: the run ends with a lookup error, the file
    holds the header line and the lines of all major and small bodies, the
    row of the unknown class among them, and neither the table nor the
    total is printed. *)
Theorem unknown_class_after_all_rows (E : Env) (dict : list (body_id * Body))
        (args : Args) (major small : list row) :
  limit_matches_scenario args = true ->
  scenario args <> planets_and_moons ->
  answered E dict major ->
  limit_reaches args (Z.of_nat (List.length dict)) = true ->
  accepted E (small_body_url args (Z.of_nat (List.length dict))) = Some small ->
  forallb known_code (major ++ small) = false ->
  exists e,
    run E dict args = (small_phase E dict args major small, inl e)
    /\ is_LookupError e = true
    /\ writes (fst (run E dict args))
       = (header_line E :: map (major_line E) major ++ map (small_line E) small)%list
    /\ stdout (fst (run E dict args))
       = [generating args; Timing "NASA Horizons Database";
          Timing "NASA JPL Small Body Database"].
Proof.
  intros Hargs Hpm Hmajor Hreach Hacc Hunknown.
  rewrite <- (records_small (scenario args) major small Hpm) in Hunknown.
  destruct (statistics_unknown _ _ _ Hunknown) as (e & Hstat & Hlook).
  exists e.
  rewrite (run_accepted E dict args major small Hargs Hpm Hmajor Hreach Hacc).
  rewrite Hstat, bind_value. cbn [fst snd]. rewrite app_nil_r.
  split; [reflexivity|]. split; [exact Hlook|].
  split; [apply writes_small_phase | apply stdout_small_phase].
Qed.

End Answers.

(** ** Runs that end well *)

Section Success.
Import PyStr Py QueryData Expected Reading.

Local Open Scope Z_scope.

Lemma increment_total (oc oc' : classes) (code : string) :
  increment oc code = Some oc' ->
  total_number_of_bodies oc' = total_number_of_bodies oc + 1.
Proof.
  revert oc'. induction oc as [|[k [l n]] oc IH]; intros oc' H; cbn [increment] in H.
  - discriminate.
  - destruct (String.eqb k code).
    + injection H as <-. rewrite !total_cons. cbn [snd]. lia.
    + destruct (increment oc code) as [oc''|]; [|discriminate].
      injection H as <-. rewrite !total_cons, (IH oc'' eq_refl). cbn [snd]. lia.
Qed.

(** Every record counted adds one to the sum of the counters. *)
Lemma count_loop_total (rows : list row) (oc oc' : classes) (t : list event) :
  for_in rows count_row oc = (t, inr oc') ->
  total_number_of_bodies oc' = total_number_of_bodies oc + Z.of_nat (List.length rows).
Proof.
  revert oc t. induction rows as [|r rows IH]; intros oc t H; cbn [for_in] in H.
  - injection H as _ <-. cbn [List.length]. lia.
  - apply bind_success in H as (t1 & oc1 & t2 & Hrow & Hrest & _).
    rewrite (IH oc1 t2 Hrest). unfold count_row in Hrow.
    destruct (nth_error r 10) as [[|code|?|?]|]; try discriminate Hrow.
    destruct (increment oc code) as [oc''|] eqn:Hinc; [|discriminate Hrow].
    injection Hrow as _ <-. rewrite (increment_total oc oc'' code Hinc).
    cbn [List.length]. lia.
Qed.

Lemma total_of_known (rows : list row) :
  forallb known_code rows = true ->
  total_number_of_bodies (add_counts orbit_classes rows) = Z.of_nat (List.length rows).
Proof.
  intros H.
  pose proof (count_loop_known rows orbit_classes orbit_classes_keys_distinct eq_refl H) as Hloop.
  rewrite (count_loop_total rows orbit_classes _ [] Hloop). reflexivity.
Qed.

(** Everything a run that ends well went through. *)
Lemma run_success_inv (E : Env) (dict : list (body_id * Body)) (args : Args)
      (t : list event) :
  run E dict args = (t, inr tt) ->
  limit_matches_scenario args = true
  /\ exists major,
      answered E dict major
      /\ limit_reaches args (Z.of_nat (List.length dict)) = true
      /\ ((scenario args = planets_and_moons
           /\ forallb known_code major = true
           /\ t = (major_phase E dict args major
                     ++ summary (add_counts orbit_classes major))%list)
          \/ (scenario args <> planets_and_moons
              /\ exists small,
                  accepted E (small_body_url args (Z.of_nat (List.length dict))) = Some small
                  /\ forallb known_code (major ++ small) = true
                  /\ t = (small_phase E dict args major small
                            ++ summary (add_counts orbit_classes (major ++ small)))%list)).
Proof.
  intros H.
  destruct (limit_matches_scenario args) eqn:Hargs.
  2:{ unfold run in H. rewrite (sanity_check_fails _ Hargs), bind_exn in H. discriminate H. }
  split; [reflexivity|].
  destruct (horizons_outcome E dict)
    as [[major Hmajor] | (before & item & after & rows & -> & Hrows & Hnone)].
  2:{ rewrite (run_unanswered E args before item after rows Hargs Hrows Hnone) in H.
      discriminate H. }
  exists major. split; [exact Hmajor|].
  destruct (limit_reaches args (Z.of_nat (List.length dict))) eqn:Hreach.
  2:{ destruct (limit_not_reached _ _ Hreach) as (l & Hl & Hlow).
      rewrite (run_limit_below E dict args major Hargs Hmajor l Hl Hlow) in H.
      discriminate H. }
  split; [reflexivity|].
  destruct (scenario_eqb (scenario args) planets_and_moons) eqn:Hpm.
  - left.
    assert (Hs : scenario args = planets_and_moons)
      by (destruct (scenario args); try discriminate Hpm; reflexivity).
    split; [exact Hs|].
    rewrite (run_planets_and_moons E dict args major Hargs Hmajor Hs) in H.
    destruct (forallb known_code (records planets_and_moons major [])) eqn:Hknown.
    + rewrite (statistics_known _ _ _ Hknown), bind_value in H. cbn [fst snd] in H.
      unfold records in H, Hknown. cbn [scenario_eqb] in H, Hknown.
      rewrite app_nil_r in H, Hknown. injection H as <-. split; [exact Hknown | reflexivity].
    + destruct (statistics_unknown _ _ _ Hknown) as (e & He & _).
      rewrite He, bind_value in H. discriminate H.
  - right.
    assert (Hs : scenario args <> planets_and_moons)
      by (intros Hs; rewrite Hs in Hpm; discriminate Hpm).
    split; [exact Hs|].
    destruct (accepted E (small_body_url args (Z.of_nat (List.length dict))))
      as [small|] eqn:Hacc.
    + exists small. split; [reflexivity|].
      rewrite (run_accepted E dict args major small Hargs Hs Hmajor Hreach Hacc) in H.
      destruct (forallb known_code (records (scenario args) major small)) eqn:Hknown.
      * rewrite (statistics_known _ _ _ Hknown), bind_value in H. cbn [fst snd] in H.
        rewrite (records_small _ _ _ Hs) in H, Hknown.
        injection H as <-. split; [exact Hknown | reflexivity].
      * destruct (statistics_unknown _ _ _ Hknown) as (e & He & _).
        rewrite He, bind_value in H. discriminate H.
    + destruct (rejected_answer_cases E dict args major Hargs Hs Hmajor Hreach Hacc)
        as (e & Hrun).
      rewrite Hrun in H. discriminate H.
Qed.

Lemma answered_all (E : Env) dict major :
  answered E dict major -> forall item, In item dict -> ephemeris_of E item <> None.
Proof.
  induction 1 as [|item r dict rows Hr _ IH]; intros x Hx; [contradiction|].
  destruct Hx as [<-|Hx]; [|now apply IH].
  unfold row_of in Hr. destruct (ephemeris_of E item); [discriminate | discriminate Hr].
Qed.

(** A run ends well only if every step did: the command line passes the
    sanity check, Horizons answers the query of every entry, the limit,
    when given, reaches the number of entries plus one, the answer of the
    Small-Body Database, when asked, is accepted, and every record has a
    known class code. *)
Theorem success_needs_every_step (E : Env) (dict : list (body_id * Body)) (args : Args)
        (t : list event) :
  run E dict args = (t, inr tt) ->
  limit_matches_scenario args = true
  /\ (forall item, In item dict -> ephemeris_of E item <> None)
  /\ (forall l, limit args = Some l -> Z.of_nat (List.length dict) + 1 <= l)
  /\ (scenario args <> planets_and_moons ->
      exists small,
        accepted E (small_body_url args (Z.of_nat (List.length dict))) = Some small
        /\ forallb known_code small = true)
  /\ exists major, answered E dict major /\ forallb known_code major = true.
Proof.
  intros H.
  destruct (run_success_inv E dict args t H) as (Hargs & major & Hmajor & Hreach & Hcases).
  split; [exact Hargs|].
  split; [exact (answered_all E dict major Hmajor)|].
  split.
  { intros l Hl. unfold limit_reaches in Hreach. rewrite Hl in Hreach.
    apply negb_true_iff, Z.ltb_ge in Hreach. exact Hreach. }
  destruct Hcases as [(Hs & Hknown & _) | (Hs & small & Hacc & Hknown & _)].
  - split; [intros Hpm; contradiction|]. exists major. split; assumption.
  - rewrite forallb_app in Hknown. apply andb_prop in Hknown as [Hm Hsm].
    split; [intros _; exists small; split; assumption|].
    exists major. split; assumption.
Qed.

Lemma last_summary (before : list console) (oc : classes) :
  last (before ++ stdout (summary oc)) (Line "")
  = Line (total_line (total_number_of_bodies oc)).
Proof.
  unfold summary. cbn [stdout].
  change [Line ""; Table (table oc); Line ""; Line (total_line (total_number_of_bodies oc))]
    with ([Line ""; Table (table oc); Line ""]
            ++ [Line (total_line (total_number_of_bodies oc))])%list.
  rewrite app_assoc. apply last_last.
Qed.

(** In a run that ends well, the total of the last line printed is the
    number of data rows in the file: the file has the header line and [n]
    more lines, and the line reads [n + 1 (Sun) =] and then [n + 1]. *)
Theorem printed_total_counts_rows (E : Env) (dict : list (body_id * Body)) (args : Args)
        (t : list event) :
  run E dict args = (t, inr tt) ->
  exists n : nat,
    List.length (writes t) = S n
    /\ last (stdout t) (Line "")
       = Line ("Total number of bodies is " ++ str_of_Z (Z.of_nat n) ++ " + 1 (Sun) = " ++
               str_of_Z (Z.of_nat n + 1) ++ ".").
Proof.
  intros H.
  destruct (run_success_inv E dict args t H) as (_ & major & _ & _ & Hcases).
  destruct Hcases as [(_ & Hknown & ->) | (_ & small & _ & Hknown & ->)].
  - exists (List.length major). split.
    + rewrite writes_app, writes_major_phase. cbn [writes summary app List.length].
      now rewrite app_nil_r, length_map.
    + rewrite stdout_app, last_summary, (total_of_known major Hknown). reflexivity.
  - exists (List.length (major ++ small)). split.
    + rewrite writes_app, writes_small_phase. cbn [writes summary app List.length].
      now rewrite app_nil_r, !length_app, !length_map.
    + rewrite stdout_app, last_summary, (total_of_known _ Hknown). reflexivity.
Qed.

End Success.

(** ** Reading back what was written and sent *)

Section ReadBack.
Import PyStr Py QueryData Expected Reading.

Lemma undouble_doubled (s : string) : undouble (Csv.double_quotes s ++ chr dq) = s.
Proof.
  induction s as [|c s IH]; [reflexivity|].
  cbn [Csv.double_quotes]. destruct (Ascii.eqb c dq) eqn:Hc.
  - apply Ascii.eqb_eq in Hc. subst c. cbn [append undouble].
    change (Ascii.eqb dq dq) with true. cbn iota. now rewrite IH.
  - cbn [append undouble]. rewrite Hc. now rewrite IH.
Qed.

(** A written field, quoted or not, stands for the text it was written
    from. *)
Lemma unfield_field (lt s : string) : unfield (Csv.field lt s) = s.
Proof.
  unfold Csv.field. destruct (existsb (Csv.special lt) s) eqn:Hs.
  - cbn [unfield]. change (Ascii.eqb dq dq) with true. cbn iota. apply undouble_doubled.
  - destruct s as [|c s]; [reflexivity|].
    cbn [existsb] in Hs. apply orb_false_elim in Hs as [Hc _].
    unfold Csv.special in Hc. apply orb_false_elim in Hc as [Hc _].
    apply orb_false_elim in Hc as [_ Hdq]. cbn [unfield]. now rewrite Hdq.
Qed.

Lemma unfield_fields (lt : string) (fs : list string) :
  map unfield (map (Csv.field lt) fs) = fs.
Proof.
  rewrite map_map. rewrite <- (map_id fs) at 2. apply map_ext. apply unfield_field.
Qed.

(** The fields of a record text that has been cut out of the file stand
    for the cells of the row: for the first writer the texts of the cells,
    for the second writer the texts of the cells and two empty fields. *)
Lemma record_cells (E : Env) (r : row) :
  r <> [] ->
  map unfield (Csv.fields_of false (major_record E r)) = map (str E) r
  /\ map unfield (Csv.fields_of false (small_record E r))
     = (map (str E) r ++ [""; ""])%list.
Proof.
  intros Hr. destruct r as [|a [|b r']]; [congruence| |].
  - unfold major_record, small_record. cbn [map Csv.record].
    destruct (String.eqb (str E a) "") eqn:Ha.
    + apply String.eqb_eq in Ha. rewrite Ha. split; reflexivity.
    + split.
      * rewrite fields_of_field_end. cbn [map]. now rewrite unfield_field.
      * rewrite fields_of_field. cbn [Csv.fields_of Csv.prepend map].
        change (Ascii.eqb "," "," && negb false) with true. cbn iota.
        cbn [Csv.prepend map unfield]. now rewrite append_nil_r, unfield_field.
  - rewrite major_record_fields, small_record_fields by (cbn [List.length]; lia).
    rewrite map_app, !unfield_fields. split; reflexivity.
Qed.

Lemma existsb_append (p : ascii -> bool) (s t : string) :
  existsb p (s ++ t) = existsb p s || existsb p t.
Proof.
  induction s as [|c s IH]; [reflexivity|].
  cbn [append existsb]. now rewrite IH, orb_assoc.
Qed.

Lemma existsb_weaken (p p' : ascii -> bool) (s : string) :
  (forall c, p c = true -> p' c = true) ->
  existsb p' s = false -> existsb p s = false.
Proof.
  intros Hpp'. induction s as [|c s IH]; [reflexivity|].
  cbn [existsb]. intros H. apply orb_false_elim in H as [Hc Hs].
  rewrite (IH Hs), orb_false_r. destruct (p c) eqn:Hp; [|reflexivity].
  rewrite (Hpp' c Hp) in Hc. discriminate Hc.
Qed.

Lemma digits_are_url_chars (d : Decimal.uint) :
  existsb (fun c => negb (url_char c)) (NilEmpty.string_of_uint d) = false.
Proof.
  induction d; cbn [NilEmpty.string_of_uint existsb]; [reflexivity | exact IHd ..].
Qed.

Lemma str_of_Z_url_chars (n : Z) :
  existsb (fun c => negb (url_char c)) (str_of_Z n) = false.
Proof.
  unfold str_of_Z, NilZero.string_of_int.
  destruct (Z.to_int n) as [d|d]; unfold NilZero.string_of_uint.
  - destruct d; try reflexivity; apply digits_are_url_chars.
  - cbn [existsb]. destruct d; try reflexivity; apply digits_are_url_chars.
Qed.

Lemma quote_url_chars (s : string) :
  existsb (fun c => negb (url_char c)) (Urllib.quote s) = false.
Proof.
  apply existsb_weaken with (2 := quote_chars s).
  intros c. unfold url_char. cbn [mem].
  destruct (Urllib.safe c); [discriminate|].
  destruct (Ascii.eqb c "%"); [discriminate | reflexivity].
Qed.

(** The URL of the request needs no further escaping, for every scenario
    and every limit: all its characters are unreserved characters,
    slashes, percent signs of escapes or the separators [:?&=,]; it has no
    white space and no quote. *)
Theorem request_url_needs_no_escaping (s : Scenario) (l : option Z) :
  existsb (fun c => negb (url_char c)) (request_url s l) = false
  /\ existsb (fun c => mem c whitespace || Ascii.eqb c dq) (request_url s l) = false.
Proof.
  assert (H : existsb (fun c => negb (url_char c)) (request_url s l) = false).
  { unfold request_url. rewrite !existsb_append.
    assert (Hc : existsb (fun c => negb (url_char c)) (constraint s l) = false).
    { destruct s; cbn [constraint].
      - reflexivity.
      - rewrite existsb_append, quote_url_chars. reflexivity.
      - rewrite existsb_append. destruct l as [n|]; cbn [format_limit].
        + rewrite str_of_Z_url_chars. reflexivity.
        + reflexivity.
      - reflexivity. }
    rewrite Hc. reflexivity. }
  split; [exact H|].
  apply existsb_weaken with (2 := H).
  intros c. destruct c as [[] [] [] [] [] [] [] []]; cbn; try discriminate; reflexivity.
Qed.

Lemma find_body_sound (nm : string) (dict : list (body_id * Body)) (p : Body) :
  find_body nm dict = Some p ->
  exists item, In item dict /\ snd item = p /\ name p = nm.
Proof.
  induction dict as [|item dict IH]; cbn [find_body]; [discriminate|].
  destruct (String.eqb (name (snd item)) nm) eqn:Hn.
  - intros H. injection H as <-. apply String.eqb_eq in Hn.
    exists item. split; [now left | split; [reflexivity | exact Hn]].
  - intros H. destruct (IH H) as (x & Hin & Hx). exists x. split; [now right | exact Hx].
Qed.

Lemma orbit_ok_sound (dict : list (body_id * Body)) (b : Body) :
  orbit_ok dict b = true ->
  ((orbit_class b = "PLA" \/ orbit_class b = "DWA")
   /\ central_body b = "Sun" /\ location_query b = "@sun")
  \/ (orbit_class b = "SAT"
      /\ (exists parent,
             In parent dict
             /\ name (snd parent) = central_body b
             /\ (orbit_class (snd parent) = "PLA" \/ orbit_class (snd parent) = "DWA")
             /\ central_body (snd parent) = "Sun")
      /\ location_query b
         = if String.eqb (central_body b) "Earth" then "Geocentric"
           else central_body b ++ " Barycenter").
Proof.
  unfold orbit_ok. destruct (String.eqb (orbit_class b) "SAT") eqn:Hsat.
  - intros H. right. apply String.eqb_eq in Hsat. split; [exact Hsat|].
    apply andb_prop in H as [Hsun H]. apply negb_true_iff in Hsun.
    destruct (find_body (central_body b) dict) as [p|] eqn:Hfind; [|discriminate H].
    apply andb_prop in H as [Hclass Hcentral].
    destruct (find_body_sound _ _ _ Hfind) as (item & Hin & Hitem & Hname).
    split.
    + exists item. rewrite Hitem. split; [exact Hin|]. split; [exact Hname|].
      apply String.eqb_eq in Hcentral. split; [|exact Hcentral].
      apply orb_prop in Hclass as [Hc|Hc]; apply String.eqb_eq in Hc; auto.
    + unfold location_query. now rewrite Hsun.
  - intros H. left. apply andb_prop in H as [Hclass Hcentral].
    apply String.eqb_eq in Hcentral. split.
    + apply orb_prop in Hclass as [Hc|Hc]; apply String.eqb_eq in Hc; auto.
    + split; [exact Hcentral|]. unfold location_query. now rewrite Hcentral.
Qed.

(** The built-in dict is consistent: no name is written twice; every
    planet and dwarf planet goes around the Sun and is queried from
    [@sun]; every moon goes around a planet or dwarf planet of the dict
    and is queried from [Geocentric] (the Moon) or from the barycenter of
    its planet. *)
Theorem major_bodies_orbits :
  distinct_names (map (fun item => name (snd item)) major_bodies_dict) = true
  /\ Forall
       (fun item =>
          ((orbit_class (snd item) = "PLA" \/ orbit_class (snd item) = "DWA")
           /\ central_body (snd item) = "Sun" /\ location_query (snd item) = "@sun")
          \/ (orbit_class (snd item) = "SAT"
              /\ (exists parent,
                     In parent major_bodies_dict
                     /\ name (snd parent) = central_body (snd item)
                     /\ (orbit_class (snd parent) = "PLA"
                         \/ orbit_class (snd parent) = "DWA")
                     /\ central_body (snd parent) = "Sun")
              /\ location_query (snd item)
                 = if String.eqb (central_body (snd item)) "Earth" then "Geocentric"
                   else central_body (snd item) ++ " Barycenter"))
       major_bodies_dict.
Proof.
  split; [vm_compute; reflexivity|].
  apply Forall_forall. intros item Hin. apply orbit_ok_sound.
  assert (Hall : forallb (fun item => orbit_ok major_bodies_dict (snd item))
                         major_bodies_dict = true) by (vm_compute; reflexivity).
  rewrite forallb_forall in Hall. exact (Hall item Hin).
Qed.

End ReadBack.

(** ** More sample runs *)

Section MoreSampleRuns.
Import PyStr Py QueryData Expected Reading.

(** Two bodies, the query for the second one unanswered. *)
Lemma unanswered_query_ends_run_witness :
  snd (run Cases.env_without_301 Sample.two_bodies (Sample.args_of full None))
  = inl (HorizonsError (IdInt 301))
  /\ network (fst (run Cases.env_without_301 Sample.two_bodies (Sample.args_of full None)))
     = [HorizonsQuery (IdInt 399) "@sun"; HorizonsQuery (IdInt 301) "Geocentric"]
  /\ writes (fst (run Cases.env_without_301 Sample.two_bodies (Sample.args_of full None)))
     = [header_line Cases.env_without_301].
Proof.
  destruct (unanswered_query_ends_run
              Cases.env_without_301 (Sample.args_of full None)
              [(IdInt 399, mkBody "Earth" "PLA" "Sun" 5.972186e+24)]
              (IdInt 301, mkBody "Luna" "SAT" "Earth" 7.345811e+22)
              []
              [horizons_row Sample.eph (mkBody "Earth" "PLA" "Sun" 5.972186e+24)])
    as (Hend & Hnet & Hfile & _).
  - reflexivity.
  - repeat constructor.
  - reflexivity.
  - exact (conj Hend (conj Hnet Hfile)).
Defined.

(** Two runs of the scenario full: the request raises; the answer is an
    object without [data]. *)
Lemma rejected_answer_writes_no_row_witness :
  (snd (run Cases.env_offline Sample.two_bodies (Sample.args_of full None))
   = inl ConnectionError
   /\ writes (fst (run Cases.env_offline Sample.two_bodies (Sample.args_of full None)))
      = header_line Cases.env_offline
        :: map (major_line Cases.env_offline) (Sample.rows_of Sample.two_bodies))
  /\ snd (run Cases.env_no_data Sample.two_bodies (Sample.args_of full None))
     = inl (KeyError (VStr "data")).
Proof.
  split.
  - destruct (rejected_answer_writes_no_row
                Cases.env_offline Sample.two_bodies (Sample.args_of full None)
                (Sample.rows_of Sample.two_bodies))
      as (e & Hrun & Hwith & Hfile & _).
    + reflexivity.
    + discriminate.
    + repeat constructor.
    + reflexivity.
    + reflexivity.
    + split; [|exact Hfile]. rewrite Hrun. cbn [snd]. f_equal. exact Hwith.
  - destruct (rejected_answer_writes_no_row
                Cases.env_no_data Sample.two_bodies (Sample.args_of full None)
                (Sample.rows_of Sample.two_bodies))
      as (e & Hrun & Hwith & _).
    + reflexivity.
    + discriminate.
    + repeat constructor.
    + reflexivity.
    + reflexivity.
    + rewrite Hrun. cbn [snd]. f_equal. exact Hwith.
Defined.

(** A run of the scenario full whose third small-body row has the class
    code HTC. *)
Lemma unknown_class_after_all_rows_witness :
  exists e,
    snd (run (Sample.env 200 (Sample.asteroids ++ [Cases.comet_row])) Sample.two_bodies
             (Sample.args_of full None)) = inl e
    /\ is_LookupError e = true
    /\ List.length
         (writes (fst (run (Sample.env 200 (Sample.asteroids ++ [Cases.comet_row]))
                           Sample.two_bodies (Sample.args_of full None))))
       = 6%nat.
Proof.
  destruct (unknown_class_after_all_rows
              (Sample.env 200 (Sample.asteroids ++ [Cases.comet_row])) Sample.two_bodies
              (Sample.args_of full None)
              (Sample.rows_of Sample.two_bodies)
              (Sample.asteroids ++ [Cases.comet_row]))
    as (e & Hrun & Hlook & Hfile & _).
  - reflexivity.
  - discriminate.
  - apply sample_answered.
  - reflexivity.
  - reflexivity.
  - reflexivity.
  - exists e. rewrite Hfile, Hrun. repeat split. exact Hlook.
Defined.

(** A run of scenario2 with the limit 5 over two bodies that ends well. *)
Lemma success_needs_every_step_witness :
  limit_matches_scenario (Sample.args_of scenario2 (Some 5%Z)) = true
  /\ (forall l, limit (Sample.args_of scenario2 (Some 5%Z)) = Some l -> (3 <= l)%Z).
Proof.
  destruct (success_needs_every_step
              (Sample.env 200 Sample.asteroids) Sample.two_bodies
              (Sample.args_of scenario2 (Some 5%Z))
              (fst (run (Sample.env 200 Sample.asteroids) Sample.two_bodies
                        (Sample.args_of scenario2 (Some 5%Z)))))
    as (Hargs & _ & Hlimit & _).
  - vm_compute. reflexivity.
  - split; [exact Hargs | exact Hlimit].
Defined.

(** A run of the scenario full over two bodies and two asteroids. *)
Lemma printed_total_counts_rows_witness :
  exists n : nat,
    List.length
      (writes (fst (run (Sample.env 200 Sample.asteroids) Sample.two_bodies
                        (Sample.args_of full None)))) = S n
    /\ last (stdout (fst (run (Sample.env 200 Sample.asteroids) Sample.two_bodies
                              (Sample.args_of full None)))) (Line "")
       = Line ("Total number of bodies is " ++ str_of_Z (Z.of_nat n) ++ " + 1 (Sun) = " ++
               str_of_Z (Z.of_nat n + 1) ++ ".").
Proof.
  apply (printed_total_counts_rows (Sample.env 200 Sample.asteroids) Sample.two_bodies
                                   (Sample.args_of full None)).
  vm_compute. reflexivity.
Defined.

End MoreSampleRuns.

(** ** Reading the file back *)

Section FileReader.
Import PyStr Py QueryData Expected Reading.

Lemma push_cons (c : ascii) (r : list string) (rs : list (list string)) :
  push c (r :: rs) = Csv.prepend (chr c) r :: rs.
Proof. reflexivity. Qed.

(** A text that is one record, followed by a line feed, is read as that
    record, and the reader goes on after the line feed. *)
Lemma read_record_lf (s rest : string) (q : bool) :
  one_record q s = true ->
  read q (s ++ String lf rest) = Csv.fields_of q s :: read false rest.
Proof.
  revert q. induction s as [|c s IH]; intros q H.
  - cbn [one_record] in H. apply negb_true_iff in H. subst q. reflexivity.
  - cbn [one_record] in H. cbn [append read Csv.fields_of].
    destruct q; cbn [negb andb] in *.
    + rewrite andb_false_r. rewrite (IH _ H). apply push_cons.
    + destruct (Ascii.eqb c ",") eqn:Hcomma.
      * apply Ascii.eqb_eq in Hcomma. subst c. cbn in H. cbn [andb].
        rewrite (IH false H). reflexivity.
      * cbn [andb]. destruct (Ascii.eqb c lf); [discriminate H|].
        destruct (Ascii.eqb c cr); [discriminate H|]. cbn [orb] in H.
        rewrite (IH _ H). apply push_cons.
Qed.

(** The same with a carriage return and a line feed after the record. *)
Lemma read_record_crlf (s rest : string) (q : bool) :
  one_record q s = true ->
  read q (s ++ String cr (String lf rest)) = Csv.fields_of q s :: read false rest.
Proof.
  revert q. induction s as [|c s IH]; intros q H.
  - cbn [one_record] in H. apply negb_true_iff in H. subst q. reflexivity.
  - cbn [one_record] in H. cbn [append read Csv.fields_of].
    destruct q; cbn [negb andb] in *.
    + rewrite andb_false_r. rewrite (IH _ H). apply push_cons.
    + destruct (Ascii.eqb c ",") eqn:Hcomma.
      * apply Ascii.eqb_eq in Hcomma. subst c. cbn in H. cbn [andb].
        rewrite (IH false H). reflexivity.
      * cbn [andb]. destruct (Ascii.eqb c lf); [discriminate H|].
        destruct (Ascii.eqb c cr); [discriminate H|]. cbn [orb] in H.
        rewrite (IH _ H). apply push_cons.
Qed.

Lemma read_record (E : Env) (s rest : string) :
  one_record false s = true ->
  read false (s ++ linesep E ++ rest) = Csv.fields_of false s :: read false rest.
Proof.
  intros H. unfold linesep. destruct (platform E); cbn [append chr].
  - now apply read_record_lf.
  - now apply read_record_crlf.
Qed.

Lemma one_record_app (a b : string) (q : bool) :
  one_record q a = true -> one_record q (a ++ b) = one_record false b.
Proof.
  revert q. induction a as [|c a IH]; intros q H.
  - cbn [one_record] in H. apply negb_true_iff in H. now subst q.
  - cbn [one_record append] in *.
    destruct (negb q && (Ascii.eqb c lf || Ascii.eqb c cr)); [discriminate H|].
    now apply IH.
Qed.

Lemma one_record_doubled (s : string) :
  one_record true (Csv.double_quotes s ++ chr dq) = true.
Proof.
  induction s as [|c s IH]; [reflexivity|].
  cbn [Csv.double_quotes]. destruct (Ascii.eqb c dq) eqn:Hc.
  - cbn [append one_record negb andb]. change (Ascii.eqb dq dq) with true.
    cbn [negb andb]. change (Ascii.eqb dq lf || Ascii.eqb dq cr) with false.
    cbn [negb]. exact IH.
  - cbn [append one_record negb andb]. rewrite Hc. exact IH.
Qed.

Lemma mem_other (c d : ascii) (s : string) :
  mem c s = false -> mem d s = true -> Ascii.eqb c d = false.
Proof.
  intros Hc Hd. destruct (Ascii.eqb c d) eqn:Heq; [|reflexivity].
  apply Ascii.eqb_eq in Heq. subst d. congruence.
Qed.

Lemma one_record_plain (s : string) :
  existsb (fun c => Ascii.eqb c lf || Ascii.eqb c cr || Ascii.eqb c dq) s = false ->
  one_record false s = true.
Proof.
  induction s as [|c s IH]; [reflexivity|].
  cbn [existsb one_record negb andb]. intros H.
  apply orb_false_elim in H as [Hc Hs]. apply orb_false_elim in Hc as [Hc Hdq].
  rewrite Hc, Hdq. now apply IH.
Qed.

Lemma mem_existsb (c : ascii) (s : string) :
  mem c s = existsb (fun d => Ascii.eqb d c) s.
Proof.
  induction s as [|d s IH]; [reflexivity|].
  cbn [mem existsb]. now rewrite IH, Ascii.eqb_sym.
Qed.

(** A written field is part of one record when the line terminator has
    the line feed and, unless it has the carriage return too, the text has
    no carriage return. *)
Lemma one_record_field (lt s : string) :
  mem lf lt = true ->
  mem cr lt = true \/ mem cr s = false ->
  one_record false (Csv.field lt s) = true.
Proof.
  intros Hlf Hcr. unfold Csv.field.
  destruct (existsb (Csv.special lt) s) eqn:Hs.
  - cbn [one_record negb andb]. change (Ascii.eqb dq lf || Ascii.eqb dq cr) with false.
    change (Ascii.eqb dq dq) with true. cbn [negb]. apply one_record_doubled.
  - apply one_record_plain.
    assert (Hcr' : existsb (fun c => Ascii.eqb c cr) s = false).
    { destruct Hcr as [Hcr|Hcr]; [|now rewrite <- mem_existsb].
      apply existsb_weaken with (2 := Hs). intros c Hc.
      apply Ascii.eqb_eq in Hc. subst c. unfold Csv.special. rewrite Hcr.
      now rewrite orb_true_r. }
    clear Hcr. revert Hs Hcr'. induction s as [|c s IH]; [reflexivity|].
    cbn [existsb]. intros Hs Hcr'.
    apply orb_false_elim in Hs as [Hc Hs]. apply orb_false_elim in Hcr' as [Hccr Hcr'].
    rewrite (IH Hs Hcr'), orb_false_r. rewrite Hccr, orb_false_r.
    unfold Csv.special in Hc. apply orb_false_elim in Hc as [Hc Hmem].
    apply orb_false_elim in Hc as [_ Hdq]. rewrite Hdq, orb_false_r.
    exact (mem_other c lf lt Hmem Hlf).
Qed.

Lemma one_record_join (lt : string) (fs : list string) :
  mem lf lt = true ->
  Forall (fun s => mem cr lt = true \/ mem cr s = false) fs ->
  one_record false (join "," (map (Csv.field lt) fs)) = true.
Proof.
  intros Hlf H. induction H as [|f fs Hf Hfs IH]; [reflexivity|].
  destruct fs as [|g fs].
  - now apply one_record_field.
  - cbn [map] in *. rewrite join_cons.
    rewrite (one_record_app _ _ false (one_record_field lt f Hlf Hf)).
    exact IH.
Qed.

Lemma one_record_record (lt : string) (fs : list string) :
  mem lf lt = true ->
  Forall (fun s => mem cr lt = true \/ mem cr s = false) fs ->
  one_record false (Csv.record lt fs) = true.
Proof.
  intros Hlf H. destruct fs as [|f [|g fs]].
  - reflexivity.
  - cbn [Csv.record]. destruct (String.eqb f ""); [reflexivity|].
    inversion H; subst. now apply one_record_field.
  - rewrite record_join. now apply one_record_join.
Qed.

Lemma line_safe_cells (E : Env) (pre : string) (r : row) :
  line_safe E r = true ->
  r <> []
  /\ Forall (fun s => mem cr (pre ++ linesep E) = true \/ mem cr s = false)
            (map (str E) r).
Proof.
  unfold line_safe, linesep. intros H. apply andb_prop in H as [Hne Hcr]. split.
  - destruct r; [discriminate Hne | discriminate].
  - destruct (platform E).
    + rewrite forallb_forall in Hcr. apply Forall_forall. intros s Hs.
      apply in_map_iff in Hs as (v & <- & Hv). right.
      apply negb_true_iff. exact (Hcr v Hv).
    + apply Forall_forall. intros s _. left.
      induction pre as [|c pre IH]; [reflexivity|].
      cbn [append mem]. rewrite IH. apply orb_true_r.
Qed.

Lemma mem_lf_linesep (E : Env) (pre : string) : mem lf (pre ++ linesep E) = true.
Proof.
  induction pre as [|c pre IH].
  - unfold linesep. destruct (platform E); reflexivity.
  - cbn [append mem]. rewrite IH. apply orb_true_r.
Qed.

Lemma major_record_one (E : Env) (r : row) :
  line_safe E r = true -> one_record false (major_record E r) = true.
Proof.
  intros H. destruct (line_safe_cells E "" r H) as [_ Hcells].
  apply one_record_record; [exact (mem_lf_linesep E "") | exact Hcells].
Qed.

Lemma small_record_one (E : Env) (r : row) :
  line_safe E r = true -> one_record false (small_record E r) = true.
Proof.
  intros H. destruct (line_safe_cells E ",," r H) as [_ Hcells].
  unfold small_record.
  rewrite (one_record_app _ _ false
             (one_record_record _ _ (mem_lf_linesep E ",,") Hcells)).
  reflexivity.
Qed.

Lemma join_lines (x : string) (l : list string) : join "" (x :: l) = x ++ join "" l.
Proof.
  destruct l; cbn [join]; [now rewrite append_nil_r | reflexivity].
Qed.

(** Lines that are one record each are read as their records, and the
    end of the file is in an empty record after them. *)
Lemma read_lines (E : Env) (rs : list string) :
  Forall (fun s => one_record false s = true) rs ->
  read false (join "" (map (fun s => s ++ linesep E) rs))
  = (map (Csv.fields_of false) rs ++ [[""]])%list.
Proof.
  induction 1 as [|s rs Hs _ IH]; [reflexivity|].
  cbn [map]. rewrite join_lines, append_assoc, (read_record E s _ Hs), IH. reflexivity.
Qed.

Lemma file_records_lines (E : Env) (rs : list string) :
  Forall (fun s => one_record false s = true) rs ->
  file_records (join "" (map (fun s => s ++ linesep E) rs)) = map (Csv.fields_of false) rs.
Proof.
  intros H. unfold file_records. rewrite (read_lines E rs H), rev_app_distr.
  cbn [rev app]. apply rev_involutive.
Qed.

Lemma header_safe (E : Env) : line_safe E header = true.
Proof.
  unfold line_safe. destruct (platform E); reflexivity.
Qed.

(** The file of a run reads back as the rows that went into it.  In a run
    of scenario1, scenario2 or full whose answer is accepted and whose rows
    each have a cell, and have no carriage return in a cell when the line
    separator is the line feed alone, a reader of the whole file finds the
    names of the header, then the cells of the major bodies in the order of
    the dict, then the cells of the small bodies in the order of the
    answer, each with two empty cells after them; commas, quotes and line
    feeds in a cell come back as they were. *)
Theorem file_reads_back (E : Env) (dict : list (body_id * Body)) (args : Args)
        (major small : list row) :
  limit_matches_scenario args = true ->
  scenario args <> planets_and_moons ->
  answered E dict major ->
  limit_reaches args (Z.of_nat (List.length dict)) = true ->
  accepted E (small_body_url args (Z.of_nat (List.length dict))) = Some small ->
  forallb (line_safe E) (major ++ small) = true ->
  cells_of_file (file_content (fst (run E dict args)))
  = (["e"; "a"; "i"; "om"; "w"; "ma"; "epoch"; "H"; "albedo"; "diameter";
      "class"; "name"; "mass"; "central_body"]
       :: map (map (str E)) major
       ++ map (fun r => map (str E) r ++ [""; ""])%list small)%list.
Proof.
  intros Hargs Hpm Hmajor Hreach Hacc Hsafe.
  rewrite forallb_app in Hsafe. apply andb_prop in Hsafe as [Hmaj Hsm].
  rewrite forallb_forall in Hmaj, Hsm.
  rewrite (run_accepted E dict args major small Hargs Hpm Hmajor Hreach Hacc).
  rewrite bind_value. cbn [fst].
  rewrite file_content_writes, writes_app, writes_small_phase, statistics_writes, app_nil_r.
  assert (Hlines :
            (header_line E :: map (major_line E) major ++ map (small_line E) small)%list
            = map (fun s => s ++ linesep E)
                  (major_record E header
                     :: map (major_record E) major ++ map (small_record E) small)%list).
  { cbn [map]. rewrite map_app, !map_map. f_equal. f_equal.
    apply map_ext. intros r. apply small_line_record. }
  rewrite Hlines. unfold cells_of_file. rewrite file_records_lines.
  - cbn [map]. rewrite map_app, !map_map. f_equal.
    + exact (proj1 (record_cells E header ltac:(discriminate))).
    + rewrite map_app, !map_map. f_equal.
      * apply map_ext_in. intros r Hr.
        destruct (line_safe_cells E "" r (Hmaj r Hr)) as [Hne _].
        exact (proj1 (record_cells E r Hne)).
      * apply map_ext_in. intros r Hr.
        destruct (line_safe_cells E "" r (Hsm r Hr)) as [Hne _].
        exact (proj2 (record_cells E r Hne)).
  - constructor; [exact (major_record_one E header (header_safe E))|].
    apply Forall_app. split; apply Forall_forall; intros s Hs;
      apply in_map_iff in Hs as (r & <- & Hr).
    + exact (major_record_one E r (Hmaj r Hr)).
    + exact (small_record_one E r (Hsm r Hr)).
Qed.

(** A run of the scenario full over two bodies and two asteroids, one of
    them with a comma in its name and a cell that is [None]. *)
Lemma file_reads_back_witness :
  nth 4 (cells_of_file
           (file_content (fst (run (Sample.env 200 Sample.asteroids) Sample.two_bodies
                                   (Sample.args_of full None))))) []
  = [ "0.2229"; "1.458"; "10.83"; "304.3"; "178.9"; "310.6"; "2461000.5"; "10.4"; "";
      "16.84"; "AMO"; "   433 Eros, (A898 PA)"; ""; "" ].
Proof.
  rewrite (file_reads_back (Sample.env 200 Sample.asteroids) Sample.two_bodies
                           (Sample.args_of full None)
                           (Sample.rows_of Sample.two_bodies) Sample.asteroids
                           eq_refl ltac:(discriminate)
                           (sample_answered 200 Sample.asteroids Sample.two_bodies)
                           eq_refl eq_refl eq_refl).
  reflexivity.
Defined.

End FileReader.

(** ** The [with] statement *)

Section WithStatement.
Import PyStr Py QueryData Expected Reading.



Lemma block_begins (E : Env) (dict : list (body_id * Body)) (args : Args) :
  exists t, fst (block E dict args) = Write (header_line E) :: t.
Proof.
  unfold block, writerow, write, emit. rewrite bind_value. cbn [fst app].
  eexists. reflexivity.
Qed.

(** How the script begins.  A command line that fails the sanity check
    ends it before anything is done.  Otherwise the first line is printed
    and the file is opened: if [open] raises, the script ends with that
    [OSError], nothing written and nothing requested; if it gives the file,
    the header line is the first thing written, before any request,
    and the file is closed at the end, whatever happens in between. *)
Theorem script_opens_with_header (E : Env) (openable : string -> bool)
        (dict : list (body_id * Body)) (args : Args) :
  (limit_matches_scenario args = false /\ fst (script E openable dict args) = [])
  \/ (limit_matches_scenario args = true
      /\ openable (output args) = false
      /\ script E openable dict args
         = ([Print (generating args)], inl (OSError (output args))))
  \/ (limit_matches_scenario args = true
      /\ openable (output args) = true
      /\ exists t,
          fst (script E openable dict args)
          = Print (generating args)
              :: Open (output args)
              :: Write ("e,a,i,om,w,ma,epoch,H,albedo,diameter,class,name,mass,central_body"
                          ++ linesep E)
              :: (t ++ [Close (output args)])%list).
Proof.
  destruct (limit_matches_scenario args) eqn:Hargs.
  - right. destruct (openable (output args)) eqn:Hopen.
    + right. split; [reflexivity|]. split; [reflexivity|].
      destruct (block_begins E dict args) as [t Ht].
      exists t. unfold script, with_open.
      rewrite (sanity_check_passes _ Hargs), Hopen, Ht. unfold print, emit, generating.
      repeat (rewrite bind_value; cbv beta; cbn [fst snd]).
      cbn [app]. now rewrite header_line_text.
    + left. split; [reflexivity|]. split; [reflexivity|].
      unfold script, with_open.
      rewrite (sanity_check_passes _ Hargs), Hopen. reflexivity.
  - left. split; [reflexivity|]. unfold script.
    now rewrite (sanity_check_fails _ Hargs), bind_exn.
Qed.








(** The script with a path that [open] takes and with one it does not. *)
Lemma script_opens_with_header_witness :
  script (Sample.env 200 Sample.asteroids) Cases.openable Sample.two_bodies
         (Cases.args_nodir full None)
  = ([Print (generating (Cases.args_nodir full None))], inl (OSError "nodir/out.csv"))
  /\ closed_content
       (fst (script (Sample.env 200 Sample.asteroids) Cases.openable Sample.two_bodies
                    (Sample.args_of full None)))
     = Some (file_content
               (fst (run (Sample.env 200 Sample.asteroids) Sample.two_bodies
                         (Sample.args_of full None)))).
Proof.
  split.
  - destruct (script_opens_with_header (Sample.env 200 Sample.asteroids) Cases.openable
                                       Sample.two_bodies (Cases.args_nodir full None))
      as [[Habs _] | [(_ & _ & Hscript) | (_ & Habs & _)]].
    + discriminate Habs.
    + exact Hscript.
    + discriminate Habs.
  - vm_compute. reflexivity.
Defined.

(** On a platform whose line separator is the line feed alone, a cell with
    a carriage return is written without quotes, and the reader finds two
    records in its line. *)
Lemma carriage_return_splits_record :
  cells_of_file
    (small_line (Sample.env 200 [])
                [VStr ("a" ++ chr cr ++ "b"); VStr ("l" ++ chr lf ++ "f")])
  = [["a"]; ["b"; "l" ++ chr lf ++ "f"; ""; ""]].
Proof. vm_compute. reflexivity. Qed.

End WithStatement.
